(** * YouLoader: the download-job tracker of [youtube_downloader.py]

    A shallow embedding of the job registry ([download_status]), the
    background worker ([YouTubeDownloader.download_video]), the status
    query ([get_download_status]) and the scheduling endpoint
    ([/api/download]), followed by the properties of the tracker.

    Conventions of the embedding.
    - A Python [str] is the Rocq [string] of its characters when these
      are ASCII ([PyStr.is_ascii]); on such texts [PyStr.split] and
      [PyFloat.float] are the builtins [str.split] and [float]. The
      builtins treat further Unicode characters as white space or as
      digits; what is stated about parsed lines is stated for ASCII
      lines, which is what [yt-dlp] prints for its progress.
    - A Python [float] is the binary64 number it denotes, written as the
      rational it equals ([Finite q], [q] in lowest terms), or an
      infinity, or NaN; [float] rounds a literal to the nearest
      binary64 number, ties to even. The two zeros, equal in Python,
      are one value.
    - The external world (the metadata lookup, [subprocess.Popen], the
      lines of the child process and its exit code) is an explicit
      environment. In [process] the child has closed its output after
      finitely many lines; [live_process] also covers a child that
      never does. *)

From Stdlib Require Import ZArith QArith Bool Ascii String List Lia.
From stdpp Require Import gmap strings.
Import ListNotations.

Local Open Scope string_scope.
Local Open Scope list_scope.

(** ** Python string primitives used by the worker *)

Module PyStr.

(** The text holds ASCII characters only. *)
Definition is_ascii_char (c : ascii) : bool := (N_of_ascii c <? 128)%N.

Fixpoint is_ascii (s : string) : bool :=
  match s with
  | EmptyString => true
  | String c s' => is_ascii_char c && is_ascii s'
  end.

(** [c.isspace()] for an ASCII character: TAB, LF, VT, FF, CR, the
    four separators 0x1c-0x1f and the space. *)
Definition is_space (c : ascii) : bool :=
  let n := N_of_ascii c in
  ((9 <=? n) && (n <=? 13) || (28 <=? n) && (n <=? 32))%N.

(** [sub in s] *)
Fixpoint contains (sub s : string) : bool :=
  String.prefix sub s
  || match s with
     | EmptyString => false
     | String _ s' => contains sub s'
     end.

(** [c in s] for a one-character [c] *)
Fixpoint has_char (c : ascii) (s : string) : bool :=
  match s with
  | EmptyString => false
  | String d s' => Ascii.eqb c d || has_char c s'
  end.

(** [s.replace(c, EmptyString)] for a one-character [c] *)
Fixpoint remove_char (c : ascii) (s : string) : string :=
  match s with
  | EmptyString => EmptyString
  | String d s' =>
      if Ascii.eqb c d then remove_char c s' else String d (remove_char c s')
  end.

Definition flush (tok : list ascii) : list string :=
  match tok with
  | [] => []
  | _ :: _ => [string_of_list_ascii (rev tok)]
  end.

(** [s.split()]: maximal runs of non-whitespace characters; [tok] is the
    run being read, last character first. *)
Fixpoint split_from (tok : list ascii) (s : string) : list string :=
  match s with
  | EmptyString => flush tok
  | String c s' =>
      if is_space c then flush tok ++ split_from [] s'
      else split_from (c :: tok) s'
  end.

Definition split (s : string) : list string := split_from [] s.

End PyStr.

(** ** Python numbers *)

Inductive pyfloat : Type :=
| Finite (q : Q)
| Inf (negative : bool)
| NaN.

Inductive pynum : Type :=
| PInt (z : Z)
| PFloat (f : pyfloat).



(** ** The builtin [float(str)] on ASCII texts

    The accepted grammar is the one of the language reference:
    surrounding whitespace is dropped; an optional sign; then [inf],
    [infinity] or [nan] in any letter case, or a decimal number with an
    optional exponent. Single underscores may separate digits. *)

Module PyFloat.

Definition is_digit (c : ascii) : bool :=
  let n := N_of_ascii c in ((48 <=? n) && (n <=? 57))%N.

Definition digit_val (c : ascii) : Z := Z.of_N (N_of_ascii c) - 48.

Definition to_lower (c : ascii) : ascii :=
  let n := N_of_ascii c in
  if ((65 <=? n) && (n <=? 90))%N then ascii_of_N (n + 32) else c.

Fixpoint drop_spaces (l : list ascii) : list ascii :=
  match l with
  | c :: l' => if PyStr.is_space c then drop_spaces l' else l
  | [] => []
  end.

Definition strip (l : list ascii) : list ascii :=
  rev (drop_spaces (rev (drop_spaces l))).

(** Underscores are removed when each one stands between two digits;
    [prev] is the character just read. *)
Fixpoint drop_underscores (prev : option ascii) (l : list ascii)
  : option (list ascii) :=
  let prev_digit := match prev with Some p => is_digit p | None => false end in
  let prev_under :=
    match prev with Some p => Ascii.eqb p "_" | None => false end in
  match l with
  | [] => if prev_under then None else Some []
  | c :: l' =>
      if Ascii.eqb c "_" then
        if prev_digit then drop_underscores (Some c) l' else None
      else if prev_under && negb (is_digit c) then None
      else option_map (cons c) (drop_underscores (Some c) l')
  end.

Fixpoint span_digits (l : list ascii) : list ascii * list ascii :=
  match l with
  | c :: l' =>
      if is_digit c then
        let '(ds, r) := span_digits l' in (c :: ds, r)
      else ([], l)
  | [] => ([], [])
  end.

Definition digits_val (ds : list ascii) : Z :=
  fold_left (fun acc c => 10 * acc + digit_val c)%Z ds 0%Z.

Definition take_sign (l : list ascii) : bool * list ascii :=
  match l with
  | "-"%char :: r => (true, r)
  | "+"%char :: r => (false, r)
  | _ => (false, l)
  end.

(** The exponent part: nothing, or [e]/[E], an optional sign and at
    least one digit, up to the end of the text. *)
Definition parse_exponent (l : list ascii) : option Z :=
  match l with
  | [] => Some 0%Z
  | c :: r =>
      if Ascii.eqb (to_lower c) "e" then
        let '(neg, r1) := take_sign r in
        match span_digits r1 with
        | ((_ :: _) as ds, []) =>
            Some (if neg then - digits_val ds else digits_val ds)%Z
        | _ => None
        end
      else None
  end.

(** The integer nearest to [n/d], ties to even ([0 <= n], [0 < d]). *)
Definition round_half_even (n d : Z) : Z :=
  let q := (n / d)%Z in
  match (2 * (n mod d) ?= d)%Z with
  | Lt => q
  | Gt => (q + 1)%Z
  | Eq => if Z.even q then q else (q + 1)%Z
  end.

(** [floor (log2 (n/d))] for positive [n] and [d]. *)
Definition log2_ratio (n d : Z) : Z :=
  let k := (Z.log2 n - Z.log2 d)%Z in
  if (d * 2 ^ Z.max 0 k <=? n * 2 ^ Z.max 0 (- k))%Z then k else (k - 1)%Z.

(** The binary64 number nearest to [n/d] ([0 <= n], [0 < d]), with the
    sign [neg]: 53 bits of precision, exponents down to the subnormal
    range, and the infinity from [2^1024] on. *)
Definition round64 (neg : bool) (n d : Z) : pyfloat :=
  if (n =? 0)%Z then Finite (Qmake 0 1)
  else
    let e := Z.max (log2_ratio n d - 52) (- 1074) in
    let m := round_half_even (n * 2 ^ Z.max 0 (- e)) (d * 2 ^ Z.max 0 e) in
    if (971 <? e)%Z || ((e =? 971)%Z && (m =? 2 ^ 53)%Z) then Inf neg
    else
      let s := (if neg then - m else m)%Z in
      if (0 <=? e)%Z then Finite (Qmake (s * 2 ^ e) 1)
      else Finite (Qred (Qmake s (Z.to_pos (2 ^ (- e))))).

Definition parse_decimal (neg : bool) (l : list ascii) : option pyfloat :=
  let '(ip, r1) := span_digits l in
  let '(fp, r2) :=
    match r1 with
    | "."%char :: r => span_digits r
    | _ => ([], r1)
    end in
  match ip ++ fp with
  | [] => None
  | (_ :: _) as ds =>
      match parse_exponent r2 with
      | Some e =>
          let m := digits_val ds in
          let e10 := (e - Z.of_nat (List.length fp))%Z in
          if (0 <=? e10)%Z then Some (round64 neg (m * 10 ^ e10) 1)
          else Some (round64 neg m (10 ^ (- e10)))
      | None => None
      end
  end.

Definition parse_body (l : list ascii) : option pyfloat :=
  let '(neg, r) := take_sign l in
  let word := string_of_list_ascii (map to_lower r) in
  if String.eqb word "inf" || String.eqb word "infinity" then Some (Inf neg)
  else if String.eqb word "nan" then Some NaN
  else parse_decimal neg r.

(** [float(s)]: [None] stands for the [ValueError] Python raises. *)
Definition float (s : string) : option pyfloat :=
  match drop_underscores None (strip (list_ascii_of_string s)) with
  | Some l => parse_body l
  | None => None
  end.

End PyFloat.

(** ** Status records and the job registry *)

(** The dictionaries stored in [download_status]: every one has a
    ["status"]; ["progress"] and ["message"] are present or absent
    according to the statement that built it. *)
Record record : Type := mk_record {
  status : string;
  progress : option pynum;
  message : option string
}.

Definition with_progress (r : record) (p : pynum) : record :=
  {| status := status r; progress := Some p; message := message r |}.

(** An instance of [Exception]; [str(e)] is [exn_text e]. *)
Record exn : Type := mk_exn { exn_class : string; exn_text : string }.

(** What an observer could have seen, in order of occurrence. *)
Inductive event : Type :=
| Wrote (download_id : string) (r : record)
    (** [download_status[download_id]] holds [r] after a write *)
| Spawned (cmd : list string)
    (** [subprocess.Popen(cmd, ...)] was called *).

(** ** Values decoded from a JSON request body *)

#[local] Set Warnings "-register-all".

Inductive pyval : Type :=
| VNone
| VBool (b : bool)
| VInt (z : Z)
| VFloat (f : pyfloat)
| VStr (s : string)
| VList (l : list pyval)
| VDict (d : list (string * pyval)).

(** [bool(v)] *)
Definition truthy (v : pyval) : bool :=
  match v with
  | VNone => false
  | VBool b => b
  | VInt z => negb (z =? 0)%Z
  | VFloat (Finite q) => negb (Qnum q =? 0)%Z
  | VFloat _ => true
  | VStr s => negb (String.eqb s EmptyString)
  | VList l => match l with [] => false | _ => true end
  | VDict d => match d with [] => false | _ => true end
  end.

(** Arguments handed to [threading.Thread(target=downloader.download_video)]:
    [(url, format_id, download_id, convert_to_mp3)]. *)
Definition thread_args : Type := (pyval * pyval * pyval * pyval)%type.

(** The process-wide state: the global [download_status], the daemon
    threads started so far, and the log of observable events. *)
Record world : Type := mk_world {
  download_status : gmap string record;
  threads : list thread_args;
  events : list event
}.

Definition empty_world : world :=
  {| download_status := ∅; threads := []; events := [] |}.

(** ** Statements: state passing with exceptions *)

Inductive result (A : Type) : Type :=
| Ok (a : A)
| Raise (e : exn).
Arguments Ok {A} a.
Arguments Raise {A} e.

Definition M (A : Type) : Type := world -> result A * world.

Definition ret {A} (a : A) : M A := fun w => (Ok a, w).

Definition raise {A} (e : exn) : M A := fun w => (Raise e, w).

Definition bind {A B} (m : M A) (k : A -> M B) : M B :=
  fun w =>
    match m w with
    | (Ok a, w') => k a w'
    | (Raise e, w') => (Raise e, w')
    end.

(** [try: body except ...: handler(e)] *)
Definition try_except {A} (body : M A) (handler : exn -> M A) : M A :=
  fun w =>
    match body w with
    | (Ok a, w') => (Ok a, w')
    | (Raise e, w') => handler e w'
    end.

Declare Scope py_scope.
Delimit Scope py_scope with py.
Notation "x <- m ;; k" := (bind m (fun x => k))
  (at level 100, m at next level, right associativity) : py_scope.
Notation "m ;; k" := (bind m (fun _ => k))
  (at level 100, right associativity) : py_scope.

Definition exec {A} (m : M A) (w : world) : world := snd (m w).
Definition outcome_of {A} (m : M A) (w : world) : result A := fst (m w).

(** [download_status[download_id] = r] *)
Definition set_status (download_id : string) (r : record) : M unit :=
  fun w =>
    (Ok tt,
     {| download_status := <[download_id := r]> (download_status w);
        threads := threads w;
        events := events w ++ [Wrote download_id r] |}).

(** [download_status[download_id]["progress"] = percent]: the stored
    dictionary is updated in place; a missing key is a [KeyError]. *)
Definition set_progress (download_id : string) (percent : pynum) : M unit :=
  fun w =>
    match download_status w !! download_id with
    | Some r => set_status download_id (with_progress r percent) w
    | None => (Raise (mk_exn "KeyError" download_id), w)
    end.

(** [float(s)] as a statement: [ValueError] on a malformed text. The
    texts of this exception and of the [KeyError] above are never
    observed: both can only be raised inside the bare [except]. *)
Definition py_float (s : string) : M pyfloat :=
  match PyFloat.float s with
  | Some f => ret f
  | None => raise (mk_exn "ValueError" "could not convert string to float")
  end.

(** ** The external collaborators *)

Inductive format_type : Type := audio | video.

(** An entry of [info["formats"]] as [get_video_info] builds it. The
    worker reads ["format_id"] and ["type"]; the numeric entries
    (filesize, resolution, fps, abr, vbr) are never read by it and are
    left out. [None] is Python's [None] ([fmt.get] on a missing key). *)
Record format_info : Type := mk_format {
  format_id : option string;
  ext : option string;
  quality : string;
  type : format_type
}.

(** The dictionary returned by [get_video_info]: either
    [{"error": msg}] or the description with its ["formats"]. *)
Inductive video_info : Type :=
| InfoError (msg : string)
| InfoOk (title : option string) (formats : list format_info).

(** A call into the outside world returns or raises. *)
Inductive outcome (A : Type) : Type :=
| Returns (a : A)
| Raises (e : exn).
Arguments Returns {A} a.
Arguments Raises {A} e.

(** A started child process: the lines read from [process.stdout], the
    exception (if any) that ends the iteration instead of end-of-file,
    and the exit code [process.wait()] stores. *)
Record process : Type := mk_process {
  stdout : list string;
  stdout_error : option exn;
  returncode : Z
}.

(** [get_video_info] as written turns every [Exception] into an
    [{"error": ...}] dictionary; the environment is nevertheless allowed
    to let the call raise, so that the worker's own handler is
    exercised. *)
Record env : Type := mk_env {
  AUDIO_DIR : string;
  VIDEO_DIR : string;
  get_video_info : string -> outcome video_info;
  Popen : list string -> outcome process
}.

Definition call {A} (o : outcome A) : M A :=
  match o with
  | Returns a => ret a
  | Raises e => raise e
  end.

(** [subprocess.Popen(cmd, ...)] *)
Definition popen (E : env) (cmd : list string) : M process :=
  fun w =>
    call (Popen E cmd)
         {| download_status := download_status w;
            threads := threads w;
            events := events w ++ [Spawned cmd] |}.

(** ** The download worker *)

Local Open Scope py_scope.

(** The body of the inner [try]:
    [for part in parts: if "%" in part: percent = float(...); store; break] *)
Fixpoint scan_parts (download_id : string) (parts : list string) : M unit :=
  match parts with
  | [] => ret tt
  | part :: rest =>
      if PyStr.has_char "%" part then
        percent <- py_float (PyStr.remove_char "%" part) ;;
        set_progress download_id (PFloat percent)
      else scan_parts download_id rest
  end.

(** One iteration of [for line in process.stdout]; the bare [except]
    swallows whatever the inner block raises. *)
Definition monitor_line (download_id : string) (line : string) : M unit :=
  if PyStr.contains "[download]" line && PyStr.has_char "%" line then
    try_except (scan_parts download_id (PyStr.split line)) (fun _ => ret tt)
  else ret tt.

Fixpoint monitor (download_id : string) (lines : list string) : M unit :=
  match lines with
  | [] => ret tt
  | line :: rest => monitor_line download_id line ;; monitor download_id rest
  end.

(** The end of [process.stdout]: end-of-file, or the exception that
    interrupted the iteration. *)
Definition end_of_stream (p : process) : M unit :=
  match stdout_error p with
  | None => ret tt
  | Some e => raise e
  end.

Definition filename_template : string := "%(title)s.%(ext)s".

(** [str(output_dir / filename_template)] with the POSIX separator. *)
Definition output_path (output_dir : string) : string :=
  output_dir ++ "/" ++ filename_template.

Definition convert_cmd (format_id out url : string) : list string :=
  ["yt-dlp"; "-f"; format_id; "-o"; out; "--no-playlist";
   "--extract-audio"; "--audio-format"; "mp3"; "--audio-quality"; "0"; url].

Definition plain_cmd (format_id out url : string) : list string :=
  ["yt-dlp"; "-f"; format_id; "-o"; out; "--no-playlist"; url].

Definition has_format_id (fid : string) (f : format_info) : bool :=
  match format_id f with
  | Some i => String.eqb i fid
  | None => false
  end.

Definition is_audio_format (f : format_info) : bool :=
  match type f with audio => true | video => false end.

Definition rec_starting : record := mk_record "starting" (Some (PInt 0)) None.
Definition rec_converting : record :=
  mk_record "converting to MP3" (Some (PInt 0)) None.
Definition rec_downloading : record :=
  mk_record "downloading" (Some (PInt 0)) None.
Definition rec_completed : record :=
  mk_record "completed" (Some (PInt 100)) None.
Definition rec_error (msg : string) : record :=
  mk_record "error" None (Some msg).

(** [YouTubeDownloader.download_video]; [convert_to_mp3] is the truth
    value of the argument. The two [return] statements are the branches
    that end without reaching [Popen]. *)
Definition download_video (E : env)
    (url fid download_id : string) (convert_to_mp3 : bool) : M unit :=
  try_except
    (set_status download_id rec_starting ;;
     info <- call (get_video_info E url) ;;
     match info with
     | InfoError err => set_status download_id (rec_error err)
     | InfoOk _ formats =>
         match find (has_format_id fid) formats with
         | None => set_status download_id (rec_error "Format not found")
         | Some chosen =>
             let is_audio := is_audio_format chosen in
             let output_dir := if is_audio then AUDIO_DIR E else VIDEO_DIR E in
             cmd <- (if is_audio && convert_to_mp3 then
                       set_status download_id rec_converting ;;
                       ret (convert_cmd fid (output_path output_dir) url)
                     else
                       set_status download_id rec_downloading ;;
                       ret (plain_cmd fid (output_path output_dir) url)) ;;
             p <- popen E cmd ;;
             monitor download_id (stdout p) ;;
             end_of_stream p ;;
             if (returncode p =? 0)%Z then
               set_status download_id rec_completed
             else
               set_status download_id (rec_error "Download failed")
         end
     end)
    (fun e => set_status download_id (rec_error (exn_text e))).

(** ** The worker beside a child that may never close its output

    [process] describes a child by everything it printed. A child that
    is still running has no such description: the worker's
    [for line in process.stdout] waits for it, and nothing in the code
    bounds the wait. *)

(** What one read of [process.stdout] delivers; [ReadBlocks] is the read
    that never returns. *)
Inductive read : Type :=
| ReadLine (line : string)
| ReadEof
| ReadRaises (e : exn)
| ReadBlocks.

(** [reads p n] is the outcome of the read number [n], counted from 0;
    the reads after the first one that is not a line are never made.
    [exit_code p] is what [process.wait()] returns, [None] for a child
    that never exits: the call has no time limit and does not return
    then. *)
Record live_process : Type := mk_live {
  reads : nat -> read;
  exit_code : option Z
}.

Record live_env : Type := mk_live_env {
  live_audio_dir : string;
  live_video_dir : string;
  live_lookup : string -> outcome video_info;
  live_Popen : list string -> outcome live_process
}.

Definition popen_live (L : live_env) (cmd : list string) : M live_process :=
  fun w =>
    call (live_Popen L cmd)
         {| download_status := download_status w;
            threads := threads w;
            events := events w ++ [Spawned cmd] |}.

(** The loop, watched for [fuel] reads from the read number [n] on:
    [None] when the worker is still in the loop after them. *)
Fixpoint monitor_live (fuel : nat) (download_id : string) (p : live_process)
    (n : nat) : M (option unit) :=
  match fuel with
  | O => ret None
  | S fuel' =>
      match reads p n with
      | ReadLine line =>
          monitor_line download_id line ;;
          monitor_live fuel' download_id p (S n)
      | ReadEof => ret (Some tt)
      | ReadRaises e => raise e
      | ReadBlocks => ret None
      end
  end.

(** [download_video] watched for [fuel] reads of the child's output:
    [Some tt] when it has returned, [None] when it is still reading or
    waiting for the child to exit. *)
Definition download_video_live (fuel : nat) (L : live_env)
    (url fid download_id : string) (convert_to_mp3 : bool) : M (option unit) :=
  try_except
    (set_status download_id rec_starting ;;
     info <- call (live_lookup L url) ;;
     match info with
     | InfoError err =>
         set_status download_id (rec_error err) ;;
         ret (Some tt)
     | InfoOk _ formats =>
         match find (has_format_id fid) formats with
         | None =>
             set_status download_id (rec_error "Format not found") ;;
             ret (Some tt)
         | Some chosen =>
             let is_audio := is_audio_format chosen in
             let output_dir :=
               if is_audio then live_audio_dir L else live_video_dir L in
             cmd <- (if is_audio && convert_to_mp3 then
                       set_status download_id rec_converting ;;
                       ret (convert_cmd fid (output_path output_dir) url)
                     else
                       set_status download_id rec_downloading ;;
                       ret (plain_cmd fid (output_path output_dir) url)) ;;
             p <- popen_live L cmd ;;
             closed <- monitor_live fuel download_id p 0 ;;
             match closed, exit_code p with
             | Some _, Some rc =>
                 (if (rc =? 0)%Z then
                    set_status download_id rec_completed
                  else
                    set_status download_id (rec_error "Download failed")) ;;
                 ret (Some tt)
             | _, _ => ret None
             end
         end
     end)
    (fun e =>
       set_status download_id (rec_error (exn_text e)) ;;
       ret (Some tt)).

(** ** The HTTP boundary *)

(** [get_download_status]: [download_status.get(download_id, {"status": "not_found"})] *)
Definition rec_not_found : record := mk_record "not_found" None None.

Definition get_download_status (download_id : string) : M record :=
  fun w => (Ok (default rec_not_found (download_status w !! download_id)), w).

(** A JSON response and its HTTP status code. *)
Inductive response : Type :=
| JsonError (msg : string) (code : Z)
| JsonSuccess (code : Z).

(** [thread.start()]: the thread is on record as started, with the
    arguments of its target. Its body, [download_video] on these
    arguments, runs beside the handler and is a [RunWorker] step of its
    own in [serve]; nothing here settles whether the worker has
    written its first record before the response is sent. *)
Definition start_thread (args : thread_args) : M unit :=
  fun w =>
    (Ok tt,
     {| download_status := download_status w;
        threads := threads w ++ [args];
        events := events w |}).

(** [data.get(key)] and [data.get(key, False)] on the decoded body. *)
Definition dict_get (data : gmap string pyval) (key : string) : pyval :=
  default VNone (data !! key).
Definition dict_get_or (data : gmap string pyval) (key : string) (d : pyval)
  : pyval :=
  default d (data !! key).

(** The route [/api/download]; [data] is the JSON object of the body. *)
Definition api_download (data : gmap string pyval) : M response :=
  let url := dict_get data "url" in
  let fid := dict_get data "format_id" in
  let download_id := dict_get data "download_id" in
  let convert_to_mp3 := dict_get_or data "convert_to_mp3" (VBool false) in
  if negb (forallb truthy [url; fid; download_id]) then
    ret (JsonError "Missing required parameters" 400)
  else
    start_thread (url, fid, download_id, convert_to_mp3) ;;
    ret (JsonSuccess 200).

Local Close Scope py_scope.

(** A worker run to completion, a status poll, or a scheduling request:
    the operations that reach the registry, taken one after the other.
    A thread started by a scheduling request shows up as a later
    [RunWorker]; the interleaving of two workers is not represented. *)
Inductive request : Type :=
| RunWorker (E : env) (url fid download_id : string) (convert_to_mp3 : bool)
| PollStatus (download_id : string)
| PostDownload (data : gmap string pyval).

Definition serve (rq : request) (w : world) : world :=
  match rq with
  | RunWorker E url fid download_id c =>
      exec (download_video E url fid download_id c) w
  | PollStatus download_id => exec (get_download_status download_id) w
  | PostDownload data => exec (api_download data) w
  end.

Definition serve_all (rqs : list request) (w : world) : world :=
  fold_left (fun w rq => serve rq w) rqs w.

(** The identifiers some worker of [rqs] was run for. *)
Definition worker_ids (rqs : list request) : list string :=
  omap (fun rq => match rq with
                  | RunWorker _ _ _ download_id _ => Some download_id
                  | _ => None
                  end) rqs.

(** ** Observations used by the statements *)

(** The effect of a list of events on the registry. *)
Definition replay (evs : list event) (reg : gmap string record)
  : gmap string record :=
  fold_left (fun reg ev =>
               match ev with
               | Wrote i r => <[i := r]> reg
               | Spawned _ => reg
               end) evs reg.

(** [w] after the events [evs] took place. *)
Definition extend (w : world) (evs : list event) : world :=
  {| download_status := replay evs (download_status w);
     threads := threads w;
     events := events w ++ evs |}.

(** The records an observer polling [download_id] could have read, in
    order. *)
Definition history (download_id : string) (evs : list event) : list record :=
  omap (fun ev => match ev with
                  | Wrote i r =>
                      if String.eqb i download_id then Some r else None
                  | Spawned _ => None
                  end) evs.

(** The progress parser: the percentage the loop body stores for one
    line of output, if any. *)
Fixpoint first_percent_part (parts : list string) : option string :=
  match parts with
  | [] => None
  | part :: rest =>
      if PyStr.has_char "%" part then Some part else first_percent_part rest
  end.

Definition progress_of_line (line : string) : option pyfloat :=
  if PyStr.contains "[download]" line && PyStr.has_char "%" line then
    match first_percent_part (PyStr.split line) with
    | Some part => PyFloat.float (PyStr.remove_char "%" part)
    | None => None
    end
  else None.






(** The writes the monitoring loop performs on a job whose record is
    [r0] when the loop starts. *)
Definition progress_writes (download_id : string) (r0 : record)
    (lines : list string) : list event :=
  map (fun p => Wrote download_id (with_progress r0 (PFloat p)))
      (omap progress_of_line lines).

(** The command the worker builds for the chosen format, and the record
    it stores just before launching it. *)
Definition launch_cmd (E : env) (url fid : string) (convert_to_mp3 : bool)
    (chosen : format_info) : list string :=
  let out :=
    output_path (if is_audio_format chosen then AUDIO_DIR E else VIDEO_DIR E) in
  if is_audio_format chosen && convert_to_mp3 then convert_cmd fid out url
  else plain_cmd fid out url.

Definition launch_record (convert_to_mp3 : bool) (chosen : format_info)
  : record :=
  if is_audio_format chosen && convert_to_mp3 then rec_converting
  else rec_downloading.

(** The record written when the child process is done. *)
Definition exit_record (p : process) : record :=
  match stdout_error p with
  | Some e => rec_error (exn_text e)
  | None =>
      if (returncode p =? 0)%Z then rec_completed
      else rec_error "Download failed"
  end.

(** The events of one run of the worker, read off the environment. *)
Definition worker_trace (E : env) (url fid download_id : string)
    (convert_to_mp3 : bool) : list event :=
  Wrote download_id rec_starting ::
  match get_video_info E url with
  | Raises e => [Wrote download_id (rec_error (exn_text e))]
  | Returns (InfoError err) => [Wrote download_id (rec_error err)]
  | Returns (InfoOk _ formats) =>
      match find (has_format_id fid) formats with
      | None => [Wrote download_id (rec_error "Format not found")]
      | Some chosen =>
          let cmd := launch_cmd E url fid convert_to_mp3 chosen in
          let r1 := launch_record convert_to_mp3 chosen in
          Wrote download_id r1 :: Spawned cmd ::
          match Popen E cmd with
          | Raises e => [Wrote download_id (rec_error (exn_text e))]
          | Returns p =>
              progress_writes download_id r1 (stdout p)
              ++ [Wrote download_id (exit_record p)]
          end
      end
  end.

(** The record the worker leaves under its identifier, read off the
    environment. *)
Definition final_record (E : env) (url fid : string) (convert_to_mp3 : bool)
  : record :=
  match get_video_info E url with
  | Raises e => rec_error (exn_text e)
  | Returns (InfoError err) => rec_error err
  | Returns (InfoOk _ formats) =>
      match find (has_format_id fid) formats with
      | None => rec_error "Format not found"
      | Some chosen =>
          match Popen E (launch_cmd E url fid convert_to_mp3 chosen) with
          | Raises e => rec_error (exn_text e)
          | Returns p => exit_record p
          end
      end
  end.

(** An event that writes, if at all, to [i]. *)
Definition writes_to (i : string) (ev : event) : Prop :=
  match ev with
  | Wrote j _ => j = i
  | Spawned _ => True
  end.

(** An event that stores, if anything, a record satisfying [P]. *)
Definition stores (P : record -> Prop) (ev : event) : Prop :=
  match ev with
  | Wrote _ r => P r
  | Spawned _ => True
  end.

(** The statuses the worker writes. *)
Definition worker_status (s : string) : Prop :=
  s = "starting" \/ s = "downloading" \/ s = "converting to MP3"
  \/ s = "completed" \/ s = "error".

(** The child is done with at its read number [n]: lines before, then
    an exception, or the end of the file and an exit. *)
Definition closes_at (p : live_process) (n : nat) : Prop :=
  (forall k, k < n -> exists line, reads p k = ReadLine line)
  /\ ((reads p n = ReadEof /\ exists rc, exit_code p = Some rc)
      \/ exists e, reads p n = ReadRaises e).

(** The lines of the reads [k], [k+1], ... up to [count] of them. *)
Fixpoint lines_read (p : live_process) (k count : nat) : list string :=
  match count with
  | O => []
  | S count' =>
      match reads p k with
      | ReadLine line => line :: lines_read p (S k) count'
      | _ => []
      end
  end.

(** A child that is done with at read [n], described by all it
    printed; the exit code of a child that has none is not looked at. *)
Definition cut (p : live_process) (n : nat) : process :=
  {| stdout := lines_read p 0 n;
     stdout_error := match reads p n with
                     | ReadRaises e => Some e
                     | _ => None
                     end;
     returncode := match exit_code p with
                   | Some rc => rc
                   | None => 0
                   end |}.

Definition finite_env (L : live_env) (n : nat) : env :=
  {| AUDIO_DIR := live_audio_dir L;
     VIDEO_DIR := live_video_dir L;
     get_video_info := live_lookup L;
     Popen := fun cmd =>
                match live_Popen L cmd with
                | Returns p => Returns (cut p n)
                | Raises e => Raises e
                end |}.




(** A request field that is absent (no key, or JSON [null]) or empty. *)
Definition absent_or_empty (data : gmap string pyval) (key : string) : Prop :=
  data !! key = None \/ data !! key = Some VNone
  \/ data !! key = Some (VStr EmptyString).
(** ** Sample environments *)

Definition fmt_audio : format_info := mk_format (Some "140") (Some "m4a") "medium" audio.
Definition fmt_video : format_info := mk_format (Some "18") (Some "mp4") "360p" video.

(** A lookup that succeeds and a child that prints [lines], then ends
    its output as [err] says and exits with [rc]. *)
Definition env_run (lines : list string) (err : option exn) (rc : Z) : env :=
  {| AUDIO_DIR := "/srv/youtubestuff/audio";
     VIDEO_DIR := "/srv/youtubestuff/video";
     get_video_info := fun _ => Returns (InfoOk (Some "clip") [fmt_audio; fmt_video]);
     Popen := fun _ => Returns (mk_process lines err rc) |}.

Definition env_lookup_raises (e : exn) : env :=
  {| AUDIO_DIR := "/srv/youtubestuff/audio";
     VIDEO_DIR := "/srv/youtubestuff/video";
     get_video_info := fun _ => Raises e;
     Popen := fun _ => Raises e |}.

Definition env_popen_raises (e : exn) : env :=
  {| AUDIO_DIR := "/srv/youtubestuff/audio";
     VIDEO_DIR := "/srv/youtubestuff/video";
     get_video_info := fun _ => Returns (InfoOk (Some "clip") [fmt_audio; fmt_video]);
     Popen := fun _ => Raises e |}.

Definition sample_url : string := "https://example.org/watch?v=abc".

(** A video download that prints one progress line and exits with 1. *)
Definition env_failed_exit : env :=
  env_run ["[download]  50.0% of 10.00MiB at 1.00MiB/s ETA 00:05"] None 1.
Definition run_failed_exit : world :=
  exec (download_video env_failed_exit sample_url "18" "job" false) empty_world.

(** A video format requested together with the MP3 conversion. *)
Definition run_video_convert : world :=
  exec (download_video (env_run [] None 0) sample_url "18" "job" true)
       empty_world.


(** ** The metadata lookup: [YouTubeDownloader.get_video_info] *)

Definition obind {A B} (o : outcome A) (k : A -> outcome B) : outcome B :=
  match o with
  | Returns a => k a
  | Raises e => Raises e
  end.

Declare Scope out_scope.
Delimit Scope out_scope with out.
Notation "x <- m ;; k" := (obind m (fun x => k))
  (at level 100, m at next level, right associativity) : out_scope.

Module Lookup.

Local Open Scope out_scope.

(** [type(v).__name__] *)
Definition type_name (v : pyval) : string :=
  match v with
  | VNone => "NoneType"
  | VBool _ => "bool"
  | VInt _ => "int"
  | VFloat _ => "float"
  | VStr _ => "str"
  | VList _ => "list"
  | VDict _ => "dict"
  end.

(** The first binding of [key] in a dictionary; a decoded JSON object
    binds each key once. *)
Fixpoint assoc (key : string) (d : list (string * pyval)) : option pyval :=
  match d with
  | [] => None
  | (k, v) :: rest => if String.eqb k key then Some v else assoc key rest
  end.

(** [v.get(key, dflt)]: only a dictionary has the method. *)
Definition py_get (v : pyval) (key : string) (dflt : pyval) : outcome pyval :=
  match v with
  | VDict d => Returns (default dflt (assoc key d))
  | _ =>
      Raises (mk_exn "AttributeError"
                ("'" ++ type_name v ++ "' object has no attribute 'get'"))
  end.

(** The items [for x in v] goes through: the elements of a list, the
    characters of a string, the keys of a dictionary. *)
Definition py_iter (v : pyval) : outcome (list pyval) :=
  match v with
  | VList l => Returns l
  | VStr s =>
      Returns (map (fun c => VStr (String c EmptyString)) (list_ascii_of_string s))
  | VDict d => Returns (map (fun kv => VStr (fst kv)) d)
  | _ =>
      Raises (mk_exn "TypeError" ("'" ++ type_name v ++ "' object is not iterable"))
  end.

(** [v == s] for a string [s] *)
Definition eq_str (v : pyval) (s : string) : bool :=
  match v with
  | VStr t => String.eqb t s
  | _ => false
  end.

(** What [subprocess.run(cmd, capture_output=True, text=True, timeout=30)]
    returns. *)
Record completed_process : Type := mk_completed {
  cp_returncode : Z;
  cp_stdout : string;
  cp_stderr : string
}.

(** The two library calls of the lookup. A timeout of [run] is the
    exception of class [TimeoutExpired]. *)
Record tools : Type := mk_tools {
  run : list pyval -> outcome completed_process;
  loads : string -> outcome pyval
}.

(** The dictionary appended to [formats] for one entry. *)
Record format_entry : Type := mk_entry {
  e_format_id : pyval;
  e_ext : pyval;
  e_quality : pyval;
  e_filesize : pyval;
  e_type : format_type;
  e_resolution : pyval;
  e_fps : pyval;
  e_abr : pyval;
  e_vbr : pyval
}.

(** The dictionary [get_video_info] returns. *)
Inductive info_dict : Type :=
| InfoDictError (msg : string)
| InfoDict (title duration uploader : pyval) (formats : list format_entry).

(** The [if]/[elif]/[elif]/[else: continue] chain; [None] is the
    [continue]. The conditions are evaluated left to right, with the
    short cut of [and]. *)
Definition classify (fmt : pyval) : outcome (option format_type) :=
  v1 <- py_get fmt "vcodec" VNone ;;
  c1 <- (if eq_str v1 "none"
         then a1 <- py_get fmt "acodec" VNone ;; Returns (negb (eq_str a1 "none"))
         else Returns false) ;;
  if c1 : bool then Returns (Some audio)
  else
    a2 <- py_get fmt "acodec" VNone ;;
    c2 <- (if eq_str a2 "none"
           then v2 <- py_get fmt "vcodec" VNone ;; Returns (negb (eq_str v2 "none"))
           else Returns false) ;;
    if c2 : bool then Returns (Some video)
    else
      v3 <- py_get fmt "vcodec" VNone ;;
      c3 <- (if negb (eq_str v3 "none")
             then a3 <- py_get fmt "acodec" VNone ;; Returns (negb (eq_str a3 "none"))
             else Returns false) ;;
      if c3 : bool then Returns (Some video) else Returns None.

(** The [format_info] dictionary of one entry. *)
Definition build_entry (fmt : pyval) (t : format_type) : outcome format_entry :=
  format_id <- py_get fmt "format_id" VNone ;;
  ext <- py_get fmt "ext" VNone ;;
  quality <- py_get fmt "format_note" (VStr "Unknown") ;;
  filesize <- py_get fmt "filesize" VNone ;;
  resolution <- py_get fmt "resolution" VNone ;;
  fps <- py_get fmt "fps" VNone ;;
  abr <- py_get fmt "abr" VNone ;;
  vbr <- py_get fmt "vbr" VNone ;;
  Returns (mk_entry format_id ext quality filesize t resolution fps abr vbr).

(** [for fmt in ...: ... formats.append(format_info)] *)
Fixpoint collect (fmts : list pyval) (formats : list format_entry)
  : outcome (list format_entry) :=
  match fmts with
  | [] => Returns formats
  | fmt :: rest =>
      t <- classify fmt ;;
      match t with
      | None => collect rest formats
      | Some ty =>
          e <- build_entry fmt ty ;;
          collect rest (formats ++ [e])
      end
  end.

(** The body of the [try] block. *)
Definition get_video_info_body (T : tools) (url : pyval) : outcome info_dict :=
  result <- run T [VStr "yt-dlp"; VStr "--dump-json"; VStr "--no-download"; url] ;;
  if negb (cp_returncode result =? 0)%Z then
    Returns (InfoDictError ("Failed to fetch video info: " ++ cp_stderr result))
  else
    video_info <- loads T (cp_stdout result) ;;
    listed <- py_get video_info "formats" (VList []) ;;
    fmts <- py_iter listed ;;
    formats <- collect fmts [] ;;
    title <- py_get video_info "title" VNone ;;
    duration <- py_get video_info "duration" VNone ;;
    uploader <- py_get video_info "uploader" VNone ;;
    Returns (InfoDict title duration uploader formats).

(** [get_video_info]: the two [except] clauses, in their order. *)
Definition get_video_info (T : tools) (url : pyval) : info_dict :=
  match get_video_info_body T url with
  | Returns d => d
  | Raises e =>
      if String.eqb (exn_class e) "TimeoutExpired"
      then InfoDictError "Request timed out"
      else InfoDictError (exn_text e)
  end.

Local Close Scope out_scope.

End Lookup.

(** The route [/api/info]: the answer and its HTTP status code. *)
Inductive info_response : Type :=
| InfoRejected (msg : string) (code : Z)
| InfoAnswer (d : Lookup.info_dict) (code : Z).

Definition api_info (T : Lookup.tools) (data : gmap string pyval)
  : info_response :=
  let url := dict_get data "url" in
  if negb (truthy url) then InfoRejected "URL is required" 400
  else InfoAnswer (Lookup.get_video_info T url) 200.

(** *** What the worker reads of the lookup's answer *)

Definition str_or_none (v : pyval) : option string :=
  match v with
  | VStr s => Some s
  | _ => None
  end.

(** The worker compares ["format_id"] with a string and reads ["type"];
    a format identifier that is not a string equals no string. The other
    fields are not read by the worker. *)
Definition worker_format (e : Lookup.format_entry) : format_info :=
  mk_format (str_or_none (Lookup.e_format_id e))
            (str_or_none (Lookup.e_ext e))
            (default EmptyString (str_or_none (Lookup.e_quality e)))
            (Lookup.e_type e).

Definition worker_info (d : Lookup.info_dict) : video_info :=
  match d with
  | Lookup.InfoDictError msg => InfoError msg
  | Lookup.InfoDict title _ _ formats =>
      InfoOk (str_or_none title) (map worker_format formats)
  end.

(** The environment of a worker whose lookup is [get_video_info] over
    the tools [T]. *)
Definition env_with_lookup (T : Lookup.tools) (audio_dir video_dir : string)
    (P : list string -> outcome process) : env :=
  {| AUDIO_DIR := audio_dir;
     VIDEO_DIR := video_dir;
     get_video_info := fun url => Returns (worker_info (Lookup.get_video_info T (VStr url)));
     Popen := P |}.

Definition live_with_lookup (T : Lookup.tools) (audio_dir video_dir : string)
    (P : list string -> outcome live_process) : live_env :=
  {| live_audio_dir := audio_dir;
     live_video_dir := video_dir;
     live_lookup := fun url => Returns (worker_info (Lookup.get_video_info T (VStr url)));
     live_Popen := P |}.

(** A child that prints nothing and never exits, one that closes its
    output at once and never exits, and one whose output breaks after a
    line. *)
Definition child_hangs : live_process :=
  {| reads := fun _ => ReadBlocks; exit_code := None |}.

Definition child_lingers : live_process :=
  {| reads := fun _ => ReadEof; exit_code := None |}.

Definition child_breaks : live_process :=
  {| reads := fun n => match n with
                       | O => ReadLine "[download]  10.0% of 10.00MiB"
                       | _ => ReadRaises (mk_exn "UnicodeDecodeError" "invalid start byte")
                       end;
     exit_code := Some 0%Z |}.

(** The exception of a lookup that takes more than 30 seconds. *)
Definition lookup_timeout : exn :=
  mk_exn "TimeoutExpired"
    "Command '['yt-dlp', '--dump-json', '--no-download', 'https://example.org/watch?v=abc']' timed out after 30 seconds".

Definition tools_slow : Lookup.tools :=
  {| Lookup.run := fun _ => Raises lookup_timeout;
     Lookup.loads := fun _ => Returns VNone |}.

(** Observations on the entries of the tool's output. *)
Definition vcodec_none (fmt : pyval) : bool :=
  match fmt with
  | VDict d => Lookup.eq_str (default VNone (Lookup.assoc "vcodec" d)) "none"
  | _ => false
  end.

Definition acodec_none (fmt : pyval) : bool :=
  match fmt with
  | VDict d => Lookup.eq_str (default VNone (Lookup.assoc "acodec" d)) "none"
  | _ => false
  end.

Definition is_dict (v : pyval) : bool :=
  match v with
  | VDict _ => true
  | _ => false
  end.

(** An entry is kept unless both of its codecs are ["none"]. *)
Definition entry_kept (fmt : pyval) : bool :=
  negb (vcodec_none fmt && acodec_none fmt).

(** [fmt.get(key)] on a dictionary entry. *)
Definition entry_field (key : string) (fmt : pyval) : pyval :=
  match fmt with
  | VDict d => default VNone (Lookup.assoc key d)
  | _ => VNone
  end.

(** [e] is the dictionary built for the entry [fmt] of the tool's
    output. *)
Definition entry_from (fmt : pyval) (e : Lookup.format_entry) : Prop :=
  Lookup.e_format_id e = entry_field "format_id" fmt
  /\ Lookup.e_ext e = entry_field "ext" fmt
  /\ Lookup.e_quality e
     = match fmt with
       | VDict d => default (VStr "Unknown") (Lookup.assoc "format_note" d)
       | _ => VStr "Unknown"
       end
  /\ Lookup.e_filesize e = entry_field "filesize" fmt
  /\ Lookup.e_type e = (if vcodec_none fmt then audio else video)
  /\ Lookup.e_resolution e = entry_field "resolution" fmt
  /\ Lookup.e_fps e = entry_field "fps" fmt
  /\ Lookup.e_abr e = entry_field "abr" fmt
  /\ Lookup.e_vbr e = entry_field "vbr" fmt.

(** The command line of the lookup. *)
Definition lookup_cmd (url : pyval) : list pyval :=
  [VStr "yt-dlp"; VStr "--dump-json"; VStr "--no-download"; url].

(** The commands of the [Spawned] events. *)
Definition spawned (evs : list event) : list (list string) :=
  omap (fun ev => match ev with
                  | Spawned cmd => Some cmd
                  | Wrote _ _ => None
                  end) evs.

(** Sample tool outputs. *)
Definition sample_entries : list pyval :=
  [ VDict [("format_id", VStr "140"); ("ext", VStr "m4a");
           ("vcodec", VStr "none"); ("acodec", VStr "mp4a.40.2");
           ("format_note", VStr "medium")];
    VDict [("format_id", VStr "sb0"); ("ext", VStr "mhtml");
           ("vcodec", VStr "none"); ("acodec", VStr "none")];
    VDict [("format_id", VStr "18"); ("ext", VStr "mp4");
           ("vcodec", VStr "avc1.42001E"); ("acodec", VStr "mp4a.40.2")];
    VDict [("format_id", VStr "x1"); ("ext", VStr "bin")] ].

Definition sample_metadata : pyval :=
  VDict [("title", VStr "clip"); ("duration", VInt 212);
         ("formats", VList sample_entries)].

(** A tool that exits with [rc] after printing [out] and [err], and a
    decoder that reads [out] as [obj]. *)
Definition tools_exit (rc : Z) (out err : string) (obj : pyval) : Lookup.tools :=
  {| Lookup.run := fun _ => Returns (Lookup.mk_completed rc out err);
     Lookup.loads := fun _ => Returns obj |}.

Definition tools_timeout : Lookup.tools :=
  {| Lookup.run := fun _ => Raises (mk_exn "TimeoutExpired" "timed out after 30 seconds");
     Lookup.loads := fun _ => Returns VNone |}.

Definition popen_quiet (rc : Z) : list string -> outcome process :=
  fun _ => Returns (mk_process [] None rc).

(** ** Start-up: directories and dependencies

    [setup_directories], [command_exists], [check_dependencies],
    [__init__] and [update_yt_dlp] of [youtube_downloader.py], and the
    functions of [setup.py]. The machine is a tree of directories and
    files (no permissions, no links), the commands run so far and the
    lines printed so far; a path is the list of its components below
    the root. The tree is the part of the file system the program
    itself makes and inspects, the download directories and the paths
    above them. What a command that is run writes (the packages [pip]
    installs) lies outside it: running a command adds to [commands]
    and leaves [files] as it is, so nothing is stated here about the
    files an installation puts on the machine. *)

Module Setup.

Inductive node : Type := Dir | File.

Record machine : Type := mk_machine {
  files : gmap (list string) node;
  commands : list (list string);
  printed : list string
}.

(** What the program finds on the machine it runs on: [Path.cwd()],
    [sys.executable], [shutil.which] and the result of a command run
    with its exit code checked ([subprocess.run(..., check=True)],
    [subprocess.check_call]): it raises [CalledProcessError] when the
    exit code is not zero. *)
Record host : Type := mk_host {
  cwd : list string;
  executable : string;
  which : string -> option string;
  checked : list string -> outcome unit
}.

Definition IO (A : Type) : Type := machine -> outcome A * machine.

Definition io_ret {A} (a : A) : IO A := fun m => (Returns a, m).

Definition io_bind {A B} (c : IO A) (k : A -> IO B) : IO B :=
  fun m =>
    match c m with
    | (Returns a, m') => k a m'
    | (Raises e, m') => (Raises e, m')
    end.

Declare Scope io_scope.
Delimit Scope io_scope with io.
Notation "x <- c ;; k" := (io_bind c (fun x => k))
  (at level 100, c at next level, right associativity) : io_scope.
Notation "c ;; k" := (io_bind c (fun _ => k))
  (at level 100, right associativity) : io_scope.

Local Open Scope io_scope.

(** [print(s)] *)
Definition print (s : string) : IO unit :=
  fun m =>
    (Returns tt,
     {| files := files m; commands := commands m; printed := printed m ++ [s] |}).

(** A command run with its exit code checked. The command is put on
    record; what it writes is outside the tree of [files]. *)
Definition run_checked (H : host) (cmd : list string) : IO unit :=
  fun m =>
    (checked H cmd,
     {| files := files m; commands := commands m ++ [cmd]; printed := printed m |}).

Definition with_files (m : machine) (fs : gmap (list string) node) : machine :=
  {| files := fs; commands := commands m; printed := printed m |}.

(** [str(path)] on a POSIX system. *)
Definition path_str (p : list string) : string :=
  match p with
  | [] => "/"
  | _ => String.concat EmptyString (map (fun c => ("/" ++ c)%string) p)
  end.

(** The root always is a directory. *)
Definition node_at (fs : gmap (list string) node) (p : list string)
  : option node :=
  match p with
  | [] => Some Dir
  | _ => fs !! p
  end.

Definition os_error (class : string) (errno : string) (what : string)
    (p : list string) : exn :=
  mk_exn class ("[Errno " ++ errno ++ "] " ++ what ++ ": '" ++ path_str p ++ "'").

(** [os.mkdir(p)]: the parent is resolved first. *)
Definition os_mkdir (p : list string) : IO unit :=
  fun m =>
    match node_at (files m) (removelast p) with
    | None =>
        (Raises (os_error "FileNotFoundError" "2" "No such file or directory" p), m)
    | Some File =>
        (Raises (os_error "NotADirectoryError" "20" "Not a directory" p), m)
    | Some Dir =>
        match node_at (files m) p with
        | Some _ => (Raises (os_error "FileExistsError" "17" "File exists" p), m)
        | None => (Returns tt, with_files m (<[p := Dir]> (files m)))
        end
    end.

(** [p.mkdir(exist_ok=True)]: [FileNotFoundError] is raised again
    ([parents] is false); any other [OSError] is dropped when [p] is a
    directory. *)
Definition mkdir_exist_ok (p : list string) : IO unit :=
  fun m =>
    match os_mkdir p m with
    | (Returns a, m') => (Returns a, m')
    | (Raises e, m') =>
        if String.eqb (exn_class e) "FileNotFoundError" then (Raises e, m')
        else
          match node_at (files m') p with
          | Some Dir => (Returns tt, m')
          | _ => (Raises e, m')
          end
    end.

Definition DOWNLOAD_DIR (H : host) : list string := cwd H ++ ["youtubestuff"].
Definition AUDIO_DIR (H : host) : list string := DOWNLOAD_DIR H ++ ["audio"].
Definition VIDEO_DIR (H : host) : list string := DOWNLOAD_DIR H ++ ["video"].

(** [YouTubeDownloader.setup_directories] *)
Definition setup_directories (H : host) : IO unit :=
  mkdir_exist_ok (DOWNLOAD_DIR H) ;;
  mkdir_exist_ok (AUDIO_DIR H) ;;
  mkdir_exist_ok (VIDEO_DIR H) ;;
  print ("✓ Directories created: " ++ path_str (DOWNLOAD_DIR H)).

(** [YouTubeDownloader.command_exists]: [shutil.which(command) is not None] *)
Definition command_exists (H : host) (command : string) : IO bool :=
  io_ret (match which H command with Some _ => true | None => false end).

(** [YouTubeDownloader.check_dependencies] *)
Definition check_dependencies (H : host) : IO unit :=
  print "Checking dependencies..." ;;
  has_ytdlp <- command_exists H "yt-dlp" ;;
  (if negb has_ytdlp then
     print "Installing yt-dlp..." ;;
     run_checked H [executable H; "-m"; "pip"; "install"; "yt-dlp"]
   else io_ret tt) ;;
  has_ffmpeg <- command_exists H "ffmpeg" ;;
  (if negb has_ffmpeg then
     print "⚠️  ffmpeg not found. Some formats may not work properly." ;;
     print "Please install ffmpeg manually for full functionality."
   else io_ret tt) ;;
  print "✓ Dependencies checked".

(** [YouTubeDownloader.__init__] *)
Definition init (H : host) : IO unit :=
  setup_directories H ;;
  check_dependencies H.

(** [YouTubeDownloader.update_yt_dlp]: the pair is
    [{"success": ..., "message": ...}]. *)
Definition update_yt_dlp (H : host) : IO (bool * string) :=
  fun m =>
    match run_checked H [executable H; "-m"; "pip"; "install"; "--upgrade"; "yt-dlp"] m with
    | (Returns _, m') => (Returns (true, "yt-dlp updated successfully"), m')
    | (Raises e, m') => (Returns (false, exn_text e), m')
    end.

(** *** [setup.py] *)

(** [install_requirements]: only [CalledProcessError] is caught. *)
Definition install_requirements (H : host) : IO bool :=
  print "Installing Python requirements..." ;;
  fun m =>
    match (run_checked H [executable H; "-m"; "pip"; "install"; "flask"; "yt-dlp"] ;;
           print "✓ Python packages installed successfully") m with
    | (Returns _, m') => (Returns true, m')
    | (Raises e, m') =>
        if String.eqb (exn_class e) "CalledProcessError" then
          (print ("❌ Failed to install Python packages: " ++ exn_text e) ;;
           io_ret false) m'
        else (Raises e, m')
    end.

(** [check_ffmpeg]: the truth value of [shutil.which("ffmpeg")]. *)
Definition check_ffmpeg (H : host) : IO bool :=
  match which H "ffmpeg" with
  | Some (String _ _) =>
      print "✓ ffmpeg is available" ;;
      io_ret true
  | _ =>
      print "⚠️  ffmpeg not found" ;;
      print "For full functionality, please install ffmpeg:" ;;
      print "  Windows: Download from https://ffmpeg.org/download.html" ;;
      print "  macOS: brew install ffmpeg" ;;
      print "  Linux: sudo apt install ffmpeg (Ubuntu/Debian)" ;;
      io_ret false
  end.

(** [create_directories] *)
Definition create_directories (H : host) : IO unit :=
  let base_dir := cwd H ++ ["youtubestuff"] in
  let audio_dir := base_dir ++ ["audio"] in
  let video_dir := base_dir ++ ["video"] in
  mkdir_exist_ok base_dir ;;
  mkdir_exist_ok audio_dir ;;
  mkdir_exist_ok video_dir ;;
  print ("✓ Created directories: " ++ path_str base_dir).

Definition newline : string := String (ascii_of_nat 10) EmptyString.

Fixpoint repeat_str (s : string) (n : nat) : string :=
  match n with
  | O => EmptyString
  | S k => s ++ repeat_str s k
  end.

(** [main] *)
Definition main (H : host) : IO unit :=
  print "🎥 YouTube Downloader Setup" ;;
  print (repeat_str "=" 40) ;;
  ok <- install_requirements H ;;
  if negb ok then
    print "Setup failed. Please install requirements manually."
  else
    check_ffmpeg H ;;
    create_directories H ;;
    print (newline ++ "✅ Setup complete!") ;;
    print "Run 'python app.py' to start the application" ;;
    print "Then open http://localhost:5000 in your browser".

Local Close Scope io_scope.

(** From [fs] to [fs'] nothing was removed or changed, and whatever
    was added is a directory at one of the paths [added]. *)
Definition grows (added : list (list string)) (fs fs' : gmap (list string) node)
  : Prop :=
  forall q n,
    (fs !! q = Some n -> fs' !! q = Some n)
    /\ (fs' !! q = Some n -> fs !! q = Some n \/ (n = Dir /\ In q added)).

(** The command lines of the two installations. *)
Definition pip_install_ytdlp (H : host) : list string :=
  [executable H; "-m"; "pip"; "install"; "yt-dlp"].
Definition pip_install_all (H : host) : list string :=
  [executable H; "-m"; "pip"; "install"; "flask"; "yt-dlp"].

(** A machine with a home directory, and hosts on it. *)
Definition sample_machine : machine :=
  {| files := {[ ["home"] := Dir; ["home"; "notes.txt"] := File ]};
     commands := [];
     printed := [] |}.

Definition sample_host (ytdlp ffmpeg : option string) (pip : outcome unit) : host :=
  {| cwd := ["home"];
     executable := "/usr/bin/python3";
     which := fun c => if String.eqb c "yt-dlp" then ytdlp
                       else if String.eqb c "ffmpeg" then ffmpeg else None;
     checked := fun _ => pip |}.

End Setup.

(** ** The string primitives on sample inputs *)

Example float_42 : PyFloat.float "42.0" = Some (Finite (42 # 1)).
Proof. reflexivity. Qed.
Example float_empty : PyFloat.float EmptyString = None.
Proof. reflexivity. Qed.
Example float_exp : PyFloat.float "-1_0.5e+1" = Some (Finite (-105 # 1)).
Proof. reflexivity. Qed.
Example float_frac : PyFloat.float ".25" = Some (Finite (1 # 4)).
Proof. reflexivity. Qed.
Example float_inf : PyFloat.float "-Infinity" = Some (Inf true).
Proof. reflexivity. Qed.
Example float_tenth :
  PyFloat.float "0.1" = Some (Finite (3602879701896397 # 36028797018963968)).
Proof. vm_compute. reflexivity. Qed.
Example float_rounds : PyFloat.float "100.00000000000000001" = Some (Finite (100 # 1)).
Proof. vm_compute. reflexivity. Qed.
Example float_ties_to_even :
  PyFloat.float "9007199254740993" = Some (Finite (9007199254740992 # 1))
  /\ PyFloat.float "9007199254740995" = Some (Finite (9007199254740996 # 1)).
Proof. split; vm_compute; reflexivity. Qed.
Example float_overflows :
  PyFloat.float "1e400" = Some (Inf false)
  /\ PyFloat.float "-1.7976931348623159e308" = Some (Inf true)
  /\ PyFloat.float "1e-400" = Some (Finite (0 # 1)).
Proof. repeat split; vm_compute; reflexivity. Qed.
Example float_bad : PyFloat.float "1_.5" = None /\ PyFloat.float "1e" = None
                    /\ PyFloat.float "1__0" = None /\ PyFloat.float "." = None.
Proof. repeat split; reflexivity. Qed.
Example split_line :
  PyStr.split "[download]  42.0% of 10.00MiB" =
  ["[download]"; "42.0%"; "of"; "10.00MiB"].
Proof. reflexivity. Qed.

(** ** Worlds and their extension by events *)

Lemma replay_app (a b : list event) (reg : gmap string record) :
  replay (a ++ b) reg = replay b (replay a reg).
Proof. unfold replay. apply fold_left_app. Qed.

Lemma extend_nil (w : world) : extend w [] = w.
Proof. destruct w as [reg th evs]. unfold extend. simpl. by rewrite app_nil_r. Qed.

Lemma extend_extend (w : world) (a b : list event) :
  extend (extend w a) b = extend w (a ++ b).
Proof. unfold extend. simpl. by rewrite replay_app, app_assoc. Qed.

Lemma set_status_run (i : string) (r : record) (w : world) :
  set_status i r w = (Ok tt, extend w [Wrote i r]).
Proof. reflexivity. Qed.

Lemma replay_other (i k : string) (evs : list event) (reg : gmap string record) :
  Forall (writes_to i) evs -> k <> i -> replay evs reg !! k = reg !! k.
Proof.
  intros Hall Hk. revert reg.
  induction Hall as [| ev evs Hev _ IH]; intros reg; [reflexivity |].
  change (replay (ev :: evs) reg) with
    (replay evs (match ev with Wrote j r => <[j := r]> reg | Spawned _ => reg end)).
  rewrite IH. destruct ev as [j r | cmd]; [| reflexivity].
  simpl in Hev. subst j. by rewrite lookup_insert_ne.
Qed.

(** After a non-empty list of events whose last one writes [r] to [i],
    the registry holds [r] under [i]. *)
Lemma replay_last (i : string) (r : record) (evs : list event)
    (reg : gmap string record) :
  replay (evs ++ [Wrote i r]) reg !! i = Some r.
Proof. rewrite replay_app. simpl. apply lookup_insert_eq. Qed.

(** ** The monitoring loop *)

Lemma scan_parts_run (i : string) (parts : list string) (w : world) :
  scan_parts i parts w =
  match first_percent_part parts with
  | None => (Ok tt, w)
  | Some part =>
      match PyFloat.float (PyStr.remove_char "%" part) with
      | None =>
          (Raise (mk_exn "ValueError" "could not convert string to float"), w)
      | Some p => set_progress i (PFloat p) w
      end
  end.
Proof.
  induction parts as [| part rest IH]; simpl; [reflexivity |].
  destruct (PyStr.has_char "%" part); [| exact IH].
  unfold bind, py_float.
  destruct (PyFloat.float (PyStr.remove_char "%" part)); reflexivity.
Qed.

(** One line either stores the parsed percentage in the job's record or
    changes nothing; it never raises. *)
Lemma monitor_line_run (i line : string) (w : world) :
  monitor_line i line w =
  (Ok tt,
   match progress_of_line line, download_status w !! i with
   | Some p, Some r => extend w [Wrote i (with_progress r (PFloat p))]
   | _, _ => w
   end).
Proof.
  unfold monitor_line, progress_of_line.
  destruct (PyStr.contains "[download]" line && PyStr.has_char "%" line);
    [| reflexivity].
  unfold try_except. rewrite scan_parts_run.
  destruct (first_percent_part (PyStr.split line)) as [part |]; [| reflexivity].
  destruct (PyFloat.float (PyStr.remove_char "%" part)) as [p |]; [| reflexivity].
  unfold set_progress.
  destruct (download_status w !! i) as [r |]; reflexivity.
Qed.

Lemma progress_writes_cons (i line : string) (r0 : record) (lines : list string) :
  progress_writes i r0 (line :: lines) =
  match progress_of_line line with
  | Some p => Wrote i (with_progress r0 (PFloat p)) :: progress_writes i r0 lines
  | None => progress_writes i r0 lines
  end.
Proof.
  unfold progress_writes. simpl.
  destruct (progress_of_line line); reflexivity.
Qed.

Lemma monitor_run (i : string) (lines : list string) :
  forall (w : world) (r0 : record),
    download_status w !! i = Some r0 ->
    monitor i lines w = (Ok tt, extend w (progress_writes i r0 lines)).
Proof.
  induction lines as [| line rest IH]; intros w r0 Hr0.
  - simpl. unfold ret. by rewrite extend_nil.
  - simpl. unfold bind. rewrite monitor_line_run, Hr0, progress_writes_cons.
    destruct (progress_of_line line) as [p |].
    + rewrite (IH _ (with_progress r0 (PFloat p))).
      * rewrite extend_extend. reflexivity.
      * simpl. apply lookup_insert_eq.
    + by apply IH.
Qed.

(** ** One run of the worker *)

Lemma progress_writes_to (i : string) (r0 : record) (lines : list string) :
  Forall (writes_to i) (progress_writes i r0 lines).
Proof.
  unfold progress_writes.
  induction (omap progress_of_line lines) as [| p ps IH]; simpl;
    constructor; [reflexivity | exact IH].
Qed.

Lemma bind_run {A B} (m : M A) (k : A -> M B) (w : world) :
  bind m k w =
  match m w with
  | (Ok a, w') => k a w'
  | (Raise e, w') => (Raise e, w')
  end.
Proof. reflexivity. Qed.

Lemma ret_run {A} (a : A) (w : world) : ret a w = (Ok a, w).
Proof. reflexivity. Qed.

Lemma popen_run (E : env) (cmd : list string) (w : world) :
  popen E cmd w =
  match Popen E cmd with
  | Returns p => (Ok p, extend w [Spawned cmd])
  | Raises e => (Raise e, extend w [Spawned cmd])
  end.
Proof. unfold popen. destruct (Popen E cmd); reflexivity. Qed.

Local Open Scope py_scope.

(** From the call of [Popen] to the end of the [try] block, for a job
    whose record is [r1]. *)
Lemma launch_run (E : env) (i : string) (cmd : list string) (r1 : record)
    (w : world) :
  download_status w !! i = Some r1 ->
  (p <- popen E cmd ;;
   monitor i (stdout p) ;;
   end_of_stream p ;;
   if (returncode p =? 0)%Z then set_status i rec_completed
   else set_status i (rec_error "Download failed")) w =
  match Popen E cmd with
  | Raises e => (Raise e, extend w [Spawned cmd])
  | Returns p =>
      match stdout_error p with
      | Some e =>
          (Raise e, extend w (Spawned cmd :: progress_writes i r1 (stdout p)))
      | None =>
          (Ok tt, extend w (Spawned cmd :: progress_writes i r1 (stdout p)
                            ++ [Wrote i (exit_record p)]))
      end
  end.
Proof.
  intros Hr1. rewrite bind_run, popen_run.
  destruct (Popen E cmd) as [p | e]; [| reflexivity].
  rewrite bind_run, (monitor_run i (stdout p) _ r1) by exact Hr1.
  rewrite extend_extend, bind_run. unfold end_of_stream, exit_record.
  destruct (stdout_error p) as [e |]; [reflexivity |].
  rewrite ret_run.
  destruct (returncode p =? 0)%Z; rewrite set_status_run, extend_extend;
    reflexivity.
Qed.

Local Close Scope py_scope.

(** The worker always returns normally, and what it did is
    [worker_trace]. *)
Lemma download_video_run (E : env) (url fid i : string) (c : bool) (w : world) :
  download_video E url fid i c w = (Ok tt, extend w (worker_trace E url fid i c)).
Proof.
  unfold download_video, worker_trace, try_except.
  rewrite bind_run, set_status_run, bind_run.
  destruct (get_video_info E url) as [[err | title formats] | e]; simpl call.
  - rewrite ret_run, set_status_run, extend_extend. reflexivity.
  - rewrite ret_run.
    destruct (find (has_format_id fid) formats) as [chosen |].
    + unfold launch_cmd, launch_record.
      set (out := output_path _).
      destruct (is_audio_format chosen && c);
        rewrite bind_run, bind_run, set_status_run, ret_run, extend_extend;
        simpl app;
        (erewrite launch_run by (simpl; apply lookup_insert_eq));
        (match goal with |- context [Popen E ?cmd] =>
           destruct (Popen E cmd) as [p | e] end);
        [ unfold exit_record; destruct (stdout_error p) as [e |]
        | | unfold exit_record; destruct (stdout_error p) as [e |] | ];
        rewrite ?set_status_run, ?extend_extend; simpl app;
        rewrite <- ?app_assoc; reflexivity.
    + rewrite set_status_run, extend_extend. reflexivity.
  - unfold raise. rewrite set_status_run, extend_extend. reflexivity.
Qed.

Lemma exec_download_video (E : env) (url fid i : string) (c : bool) (w : world) :
  exec (download_video E url fid i c) w = extend w (worker_trace E url fid i c).
Proof. unfold exec. by rewrite download_video_run. Qed.

Lemma worker_trace_last (E : env) (url fid i : string) (c : bool) :
  exists evs, worker_trace E url fid i c = evs ++ [Wrote i (final_record E url fid c)].
Proof.
  unfold worker_trace, final_record.
  destruct (get_video_info E url) as [[err | title formats] | e].
  - by exists [Wrote i rec_starting].
  - destruct (find (has_format_id fid) formats) as [chosen |].
    + destruct (Popen E (launch_cmd E url fid c chosen)) as [p | e].
      * exists (Wrote i rec_starting :: Wrote i (launch_record c chosen)
                :: Spawned (launch_cmd E url fid c chosen)
                :: progress_writes i (launch_record c chosen) (stdout p)).
        reflexivity.
      * by exists [Wrote i rec_starting; Wrote i (launch_record c chosen);
                   Spawned (launch_cmd E url fid c chosen)].
    + by exists [Wrote i rec_starting].
  - by exists [Wrote i rec_starting].
Qed.

(** After the worker, the registry holds [final_record] under the job's
    identifier. *)
Lemma download_video_final (E : env) (url fid i : string) (c : bool) (w : world) :
  download_status (exec (download_video E url fid i c) w) !! i
  = Some (final_record E url fid c).
Proof.
  rewrite exec_download_video. unfold extend. cbn [download_status].
  destruct (worker_trace_last E url fid i c) as [evs ->].
  apply replay_last.
Qed.

Lemma exit_record_terminal (p : process) :
  status (exit_record p) = "completed" \/ status (exit_record p) = "error".
Proof.
  unfold exit_record. destruct (stdout_error p); [by right |].
  destruct (returncode p =? 0)%Z; [by left | by right].
Qed.

Lemma final_record_terminal (E : env) (url fid : string) (c : bool) :
  status (final_record E url fid c) = "completed"
  \/ status (final_record E url fid c) = "error".
Proof.
  unfold final_record.
  destruct (get_video_info E url) as [[err | title formats] | e];
    try (by right).
  destruct (find (has_format_id fid) formats) as [chosen |]; [| by right].
  destruct (Popen E (launch_cmd E url fid c chosen)) as [p | e]; [| by right].
  apply exit_record_terminal.
Qed.

(** The two ways of failing before any output is read. *)
Example lookup_raises_run :
  worker_trace (env_lookup_raises (mk_exn "OSError" "yt-dlp: not found"))
               sample_url "18" "job" false
  = [ Wrote "job" rec_starting; Wrote "job" (rec_error "yt-dlp: not found") ].
Proof. reflexivity. Qed.

Example popen_raises_run :
  history "job"
    (worker_trace (env_popen_raises (mk_exn "OSError" "yt-dlp: not found"))
                  sample_url "140" "job" true)
  = [ rec_starting; rec_converting; rec_error "yt-dlp: not found" ].
Proof. reflexivity. Qed.

(** *** The worker beside a running child *)

Lemma popen_live_run (L : live_env) (cmd : list string) (w : world) :
  popen_live L cmd w =
  match live_Popen L cmd with
  | Returns p => (Ok p, extend w [Spawned cmd])
  | Raises e => (Raise e, extend w [Spawned cmd])
  end.
Proof. unfold popen_live. destruct (live_Popen L cmd); reflexivity. Qed.

Lemma closes_at_unique (p : live_process) (n k : nat) :
  closes_at p n -> closes_at p k -> n = k.
Proof.
  intros [Hn Hn'] [Hk Hk'].
  destruct (Nat.lt_trichotomy n k) as [Hlt | [Heq | Hgt]]; [| exact Heq |].
  - destruct (Hk n Hlt) as [line Hline]. rewrite Hline in Hn'.
    destruct Hn' as [[H _] | [e H]]; discriminate H.
  - destruct (Hn k Hgt) as [line Hline]. rewrite Hline in Hk'.
    destruct Hk' as [[H _] | [e H]]; discriminate H.
Qed.

(** Watched long enough, the loop beside a child that closes its output
    at read [n] does what [monitor] does on the lines of the reads
    before [n]. *)
Lemma monitor_live_cut (i : string) (p : live_process) (n : nat) :
  closes_at p n ->
  forall (fuel k : nat) (w : world) (r0 : record),
    k <= n -> n - k < fuel ->
    download_status w !! i = Some r0 ->
    monitor_live fuel i p k w
    = (match reads p n with
       | ReadRaises e => Raise e
       | _ => Ok (Some tt)
       end,
       extend w (progress_writes i r0 (lines_read p k (n - k)))).
Proof.
  intros [Hlines Hend] fuel.
  induction fuel as [| fuel IH]; intros k w r0 Hk Hfuel Hr0; [lia |].
  destruct (decide (k = n)) as [-> | Hne].
  - rewrite Nat.sub_diag. cbn [lines_read monitor_live].
    unfold progress_writes. cbn [omap list_omap map]. rewrite extend_nil.
    destruct Hend as [[-> _] | [e ->]]; reflexivity.
  - destruct (Hlines k ltac:(lia)) as [line Hline].
    replace (n - k) with (S (n - S k)) by lia.
    cbn [lines_read monitor_live]. rewrite Hline.
    rewrite progress_writes_cons, bind_run, monitor_line_run, Hr0.
    destruct (progress_of_line line) as [v |].
    + rewrite (IH (S k) _ (with_progress r0 (PFloat v))); [| lia | lia |].
      * by rewrite extend_extend.
      * cbn. apply lookup_insert_eq.
    + apply IH; [lia | lia | exact Hr0].
Qed.

Local Open Scope py_scope.

Lemma launch_live_run (L : live_env) (i : string) (cmd : list string)
    (r1 : record) (w : world) (n fuel : nat) :
  download_status w !! i = Some r1 ->
  (forall p, live_Popen L cmd = Returns p -> closes_at p n) ->
  n < fuel ->
  (p <- popen_live L cmd ;;
   closed <- monitor_live fuel i p 0 ;;
   match closed, exit_code p with
   | Some _, Some rc =>
       (if (rc =? 0)%Z then set_status i rec_completed
        else set_status i (rec_error "Download failed")) ;;
       ret (Some tt)
   | _, _ => ret None
   end) w =
  match live_Popen L cmd with
  | Raises e => (Raise e, extend w [Spawned cmd])
  | Returns p =>
      match stdout_error (cut p n) with
      | Some e =>
          (Raise e,
           extend w (Spawned cmd :: progress_writes i r1 (stdout (cut p n))))
      | None =>
          (Ok (Some tt),
           extend w (Spawned cmd :: progress_writes i r1 (stdout (cut p n))
                     ++ [Wrote i (exit_record (cut p n))]))
      end
  end.
Proof.
  intros Hr1 Hclose Hfuel. rewrite bind_run, popen_live_run.
  destruct (live_Popen L cmd) as [p | e]; [| reflexivity].
  specialize (Hclose p eq_refl).
  rewrite bind_run.
  rewrite (monitor_live_cut i p n Hclose fuel 0 _ r1) by (lia || exact Hr1).
  rewrite Nat.sub_0_r, extend_extend.
  unfold exit_record. cbn [cut stdout stdout_error returncode].
  destruct Hclose as [_ [[Hend [rc Hrc]] | [e Hend]]]; rewrite Hend;
    [| reflexivity].
  rewrite Hrc, bind_run.
  destruct (rc =? 0)%Z; rewrite set_status_run, ret_run, extend_extend;
    reflexivity.
Qed.

Local Close Scope py_scope.

(** A run beside a child that closes its output at read [n], watched
    for more than [n] reads, is the run of [download_video] on what the
    child printed. *)
Lemma live_refines (L : live_env) (url fid i : string) (c : bool) (w : world)
    (n fuel : nat) :
  (forall title formats chosen p,
     live_lookup L url = Returns (InfoOk title formats) ->
     find (has_format_id fid) formats = Some chosen ->
     live_Popen L (launch_cmd (finite_env L n) url fid c chosen) = Returns p ->
     closes_at p n) ->
  n < fuel ->
  download_video_live fuel L url fid i c w
  = (Ok (Some tt), extend w (worker_trace (finite_env L n) url fid i c)).
Proof.
  intros Hclose Hfuel.
  unfold download_video_live, worker_trace, try_except.
  cbn [get_video_info finite_env Popen].
  rewrite bind_run, set_status_run, bind_run.
  destruct (live_lookup L url) as [[err | title formats] | e] eqn:Hinfo; simpl call.
  - rewrite ret_run, bind_run, set_status_run, ret_run, extend_extend. reflexivity.
  - rewrite ret_run.
    destruct (find (has_format_id fid) formats) as [chosen |] eqn:Hfind.
    + specialize (Hclose title formats chosen).
      unfold launch_cmd, launch_record in *. cbn [AUDIO_DIR VIDEO_DIR finite_env] in *.
      set (out := output_path _) in *.
      destruct (is_audio_format chosen && c);
        rewrite bind_run, bind_run, set_status_run, ret_run, extend_extend;
        simpl app;
        (erewrite (launch_live_run L i _ _ _ n fuel);
           [ | simpl; apply lookup_insert_eq
             | intros p Hp; by apply Hclose
             | exact Hfuel ]);
        (match goal with |- context [live_Popen L ?cmd] =>
           destruct (live_Popen L cmd) as [p | e] end);
        [ unfold exit_record; cbn [cut stdout stdout_error returncode];
          destruct (reads p n)
        | | unfold exit_record; cbn [cut stdout stdout_error returncode];
          destruct (reads p n)
        | ];
        rewrite ?bind_run, ?set_status_run, ?ret_run, ?extend_extend; simpl app;
        rewrite <- ?app_assoc; reflexivity.
    + rewrite bind_run, set_status_run, ret_run, extend_extend. reflexivity.
  - unfold raise. rewrite bind_run, set_status_run, ret_run, extend_extend.
    reflexivity.
Qed.

Lemma spawned_in_trace (E : env) (url fid i : string) (c : bool)
    (cmd : list string) :
  In (Spawned cmd) (worker_trace E url fid i c) ->
  exists title formats chosen,
    get_video_info E url = Returns (InfoOk title formats)
    /\ find (has_format_id fid) formats = Some chosen
    /\ cmd = launch_cmd E url fid c chosen.
Proof.
  unfold worker_trace. intros [H | H]; [discriminate H |].
  destruct (get_video_info E url) as [[err | title formats] | e] eqn:Hinfo;
    try (destruct H as [H | []]; discriminate H).
  destruct (find (has_format_id fid) formats) as [chosen |] eqn:Hfind;
    [| destruct H as [H | []]; discriminate H].
  exists title, formats, chosen. split; [reflexivity |]. split; [exact Hfind |].
  destruct H as [H | [H | H]]; [discriminate H | by injection H |].
  exfalso. destruct (Popen E _) as [p | e].
  - apply in_app_iff in H as [H | [H | []]]; [| discriminate H].
    unfold progress_writes in H. apply in_map_iff in H as (v & Hv & _).
    discriminate Hv.
  - destruct H as [H | []]. discriminate H.
Qed.

(** ** Properties of the tracker *)

(** C1, as stated, fails twice. A lookup that times out raises an
    exception whose text is the command line and the time limit, and
    the job is recorded with the message ["Request timed out"], which is
    not that text. And beside a child that never closes its output, or
    closes it and never exits, the worker never returns: however long
    it is watched, the job stays in ["downloading"]. *)
Lemma worker_claim_fails :
  Lookup.get_video_info_body tools_slow (VStr sample_url) = Raises lookup_timeout
  /\ download_video_live 1 (live_with_lookup tools_slow "/srv/audio" "/srv/video"
                                            (fun _ => Returns child_hangs))
       sample_url "18" "job" false empty_world
     = (Ok (Some tt),
        extend empty_world
          [ Wrote "job" (mk_record "starting" (Some (PInt 0)) None);
            Wrote "job" (mk_record "error" None (Some "Request timed out")) ])
  /\ exn_text lookup_timeout <> "Request timed out"
  /\ forall (fuel : nat) (child : live_process),
       child = child_hangs \/ child = child_lingers ->
       fst (download_video_live fuel
              (mk_live_env "/srv/audio" "/srv/video"
                 (fun _ => Returns (InfoOk (Some "clip") [fmt_audio; fmt_video]))
                 (fun _ => Returns child))
              sample_url "18" "job" false empty_world)
       = Ok None
       /\ download_status
            (exec (download_video_live fuel
                     (mk_live_env "/srv/audio" "/srv/video"
                        (fun _ => Returns (InfoOk (Some "clip") [fmt_audio; fmt_video]))
                        (fun _ => Returns child))
                     sample_url "18" "job" false) empty_world) !! "job"
          = Some (mk_record "downloading" (Some (PInt 0)) None).
Proof.
  split; [reflexivity |]. split; [reflexivity |]. split; [discriminate |].
  intros fuel child [-> | ->]; destruct fuel as [| fuel];
    split; vm_compute; reflexivity.
Qed.

(** C1, amended. Suppose every child the environment can start is done
    with after finitely many reads: its output ends with an exception,
    or ends and the child exits. Then the worker, watched long enough,
    has returned normally, and the registry holds under the job's
    identifier a record whose status is [completed] or [error]. An
    exception raised while starting the child or while reading its
    output is recorded as the error record whose message is the text of
    the exception. An exception raised inside the metadata lookup is
    recorded as the error record with the lookup's message:
    ["Request timed out"] for a [TimeoutExpired], the text of the
    exception otherwise. *)
Theorem worker_reaches_terminal (T : Lookup.tools) (a v : string)
    (P : list string -> outcome live_process) (url fid i : string) (c : bool)
    (w : world) :
  (forall cmd p, P cmd = Returns p -> exists n, closes_at p n) ->
  exists (fuel0 : nat) (r : record) (evs : list event),
    (forall fuel, fuel0 <= fuel ->
       download_video_live fuel (live_with_lookup T a v P) url fid i c w
       = (Ok (Some tt), extend w evs))
    /\ download_status (extend w evs) !! i = Some r
    /\ (status r = "completed" \/ status r = "error")
    /\ (forall e,
          Lookup.get_video_info_body T (VStr url) = Raises e ->
          r = mk_record "error" None
                (Some (if String.eqb (exn_class e) "TimeoutExpired"
                       then "Request timed out" else exn_text e)))
    /\ (forall cmd e,
          In (Spawned cmd) evs -> P cmd = Raises e ->
          r = mk_record "error" None (Some (exn_text e)))
    /\ (forall cmd p n e,
          In (Spawned cmd) evs -> P cmd = Returns p ->
          closes_at p n -> reads p n = ReadRaises e ->
          r = mk_record "error" None (Some (exn_text e))).
Proof.
  intros Hcloses.
  set (L := live_with_lookup T a v P).
  assert (Hn : exists n,
    forall title formats chosen p,
      live_lookup L url = Returns (InfoOk title formats) ->
      find (has_format_id fid) formats = Some chosen ->
      live_Popen L (launch_cmd (finite_env L n) url fid c chosen) = Returns p ->
      closes_at p n).
  { destruct (live_lookup L url) as [[err | title formats] | e] eqn:Hinfo;
      try (exists 0; intros; discriminate).
    destruct (find (has_format_id fid) formats) as [chosen |] eqn:Hfind;
      [| exists 0; intros ? ? ? ? [= <- <-] H; rewrite Hfind in H; discriminate H].
    destruct (live_Popen L (launch_cmd (finite_env L 0) url fid c chosen))
      as [p | e] eqn:Hp.
    - destruct (Hcloses _ p Hp) as [n Hn]. exists n.
      intros t fs ch p' [= <- <-] Hch Hp'. rewrite Hfind in Hch.
      injection Hch as <-.
      change (launch_cmd (finite_env L n) url fid c chosen)
        with (launch_cmd (finite_env L 0) url fid c chosen) in Hp'.
      rewrite Hp in Hp'. by injection Hp' as <-.
    - exists 0. intros t fs ch p' [= <- <-] Hch Hp'. rewrite Hfind in Hch.
      injection Hch as <-. rewrite Hp in Hp'. discriminate Hp'. }
  destruct Hn as [n Hn].
  set (E := finite_env L n).
  exists (S n), (final_record E url fid c), (worker_trace E url fid i c).
  split; [| split; [| split; [| split; [| split]]]].
  - intros fuel Hfuel. apply live_refines; [exact Hn | lia].
  - cbn [extend download_status].
    destruct (worker_trace_last E url fid i c) as [pre ->]. apply replay_last.
  - apply final_record_terminal.
  - intros e He. unfold final_record. cbn [get_video_info E finite_env L
      live_lookup live_with_lookup].
    unfold Lookup.get_video_info. rewrite He.
    destruct (String.eqb (exn_class e) "TimeoutExpired"); reflexivity.
  - intros cmd e Hin Hp.
    apply spawned_in_trace in Hin as (title & formats & chosen & Hinfo & Hfind & ->).
    unfold final_record. rewrite Hinfo, Hfind.
    cbn [Popen E finite_env]. cbn [live_Popen L live_with_lookup].
    by rewrite Hp.
  - intros cmd p k e Hin Hp Hk Hraise.
    apply spawned_in_trace in Hin as (title & formats & chosen & Hinfo & Hfind & ->).
    assert (Hkn : n = k).
    { apply (closes_at_unique p); [| exact Hk].
      apply (Hn title formats chosen p); [exact Hinfo | exact Hfind | exact Hp]. }
    subst k.
    unfold final_record. rewrite Hinfo, Hfind.
    cbn [Popen E finite_env]. cbn [live_Popen L live_with_lookup].
    rewrite Hp. unfold exit_record. cbn [cut stdout_error]. by rewrite Hraise.
Qed.

(** A child whose output breaks after one line is done with at its
    second read; the job ends with the text of that exception. *)
Lemma worker_reaches_terminal_witness :
  exists (fuel0 : nat) (evs : list event),
    (forall fuel, fuel0 <= fuel ->
       download_video_live fuel
         (live_with_lookup (tools_exit 0 "{}" EmptyString sample_metadata)
                           "/srv/audio" "/srv/video" (fun _ => Returns child_breaks))
         sample_url "140" "job" true empty_world
       = (Ok (Some tt), extend empty_world evs))
    /\ download_status (extend empty_world evs) !! "job"
       = Some (mk_record "error" None (Some "invalid start byte")).
Proof.
  destruct (worker_reaches_terminal
              (tools_exit 0 "{}" EmptyString sample_metadata)
              "/srv/audio" "/srv/video" (fun _ => Returns child_breaks)
              sample_url "140" "job" true empty_world)
    as (fuel0 & r & evs & Hrun & Hr & _ & _ & _ & Hbreak).
  - intros cmd p [= <-]. exists 1. split.
    + intros k Hk. exists "[download]  10.0% of 10.00MiB".
      destruct k as [| k]; [reflexivity | lia].
    + right. by eexists.
  - exists fuel0, evs. split; [exact Hrun |]. rewrite Hr. f_equal.
    assert (Hevs : In (Spawned (convert_cmd "140" "/srv/audio/%(title)s.%(ext)s"
                                  sample_url)) evs).
    { pose proof (Hrun (3 + fuel0) ltac:(lia)) as H.
      apply (f_equal (fun x => events (snd x))) in H.
      vm_compute in H. rewrite <- H. right. right. by left. }
    apply (Hbreak _ child_breaks 1 (mk_exn "UnicodeDecodeError" "invalid start byte")
             Hevs eq_refl); [| reflexivity].
    split.
    + intros k Hk. exists "[download]  10.0% of 10.00MiB".
      destruct k as [| k]; [reflexivity | lia].
    + right. by eexists.
Defined.

(** The same run, watched for three reads. *)
Example child_breaks_run :
  download_video_live 3
    (live_with_lookup (tools_exit 0 "{}" EmptyString sample_metadata)
                      "/srv/audio" "/srv/video" (fun _ => Returns child_breaks))
    sample_url "140" "job" true empty_world
  = (Ok (Some tt),
     extend empty_world
       [ Wrote "job" (mk_record "starting" (Some (PInt 0)) None);
         Wrote "job" (mk_record "converting to MP3" (Some (PInt 0)) None);
         Spawned (convert_cmd "140" "/srv/audio/%(title)s.%(ext)s" sample_url);
         Wrote "job" (mk_record "converting to MP3"
                        (Some (PFloat (Finite (10 # 1)))) None);
         Wrote "job" (mk_record "error" None (Some "invalid start byte")) ]).
Proof. vm_compute. reflexivity. Qed.

(** C3. When the child process ran and its output was read to the end,
    the record written on exit depends on the exit code alone: zero
    gives [completed] with progress 100, anything else gives [error]
    with the message ["Download failed"]. *)
Theorem exit_code_decides (E : env) (url fid i : string) (c : bool) (w : world)
    (title : option string) (formats : list format_info)
    (chosen : format_info) (p : process) :
  get_video_info E url = Returns (InfoOk title formats) ->
  find (has_format_id fid) formats = Some chosen ->
  Popen E (launch_cmd E url fid c chosen) = Returns p ->
  stdout_error p = None ->
  download_status (exec (download_video E url fid i c) w) !! i
  = Some (if (returncode p =? 0)%Z
          then mk_record "completed" (Some (PInt 100)) None
          else mk_record "error" None (Some "Download failed")).
Proof.
  intros Hinfo Hfind Hpopen Herr.
  rewrite download_video_final. unfold final_record, exit_record.
  by rewrite Hinfo, Hfind, Hpopen, Herr.
Qed.

Lemma exit_code_decides_witness :
  download_status
    (exec (download_video
             (env_run ["[download]  10.0% of 10.00MiB";
                       "[download]  55.0% of 10.00MiB";
                       "[download] 100% of 10.00MiB in 00:03"] None 0)
             sample_url "18" "job" false) empty_world) !! "job"
  = Some (mk_record "completed" (Some (PInt 100)) None).
Proof.
  exact (exit_code_decides
           (env_run ["[download]  10.0% of 10.00MiB";
                     "[download]  55.0% of 10.00MiB";
                     "[download] 100% of 10.00MiB in 00:03"] None 0)
           sample_url "18" "job" false empty_world
           (Some "clip") [fmt_audio; fmt_video] fmt_video
           (mk_process ["[download]  10.0% of 10.00MiB";
                        "[download]  55.0% of 10.00MiB";
                        "[download] 100% of 10.00MiB in 00:03"] None 0)
           eq_refl eq_refl eq_refl eq_refl).
Defined.

(** C4, as stated, fails: a download that reported 50.0 and then exited
    with code 1 ends with a record that has no progress entry at all;
    the value observed last is not kept. *)
Lemma failed_exit_progress_not_kept :
  Popen env_failed_exit (launch_cmd env_failed_exit sample_url "18" false fmt_video)
  = Returns (mk_process
               ["[download]  50.0% of 10.00MiB at 1.00MiB/s ETA 00:05"] None 1)
  /\ history "job" (events run_failed_exit)
     = [ mk_record "starting" (Some (PInt 0)) None;
         mk_record "downloading" (Some (PInt 0)) None;
         mk_record "downloading" (Some (PFloat (Finite (50 # 1)))) None;
         mk_record "error" None (Some "Download failed") ]
  /\ download_status run_failed_exit !! "job"
     = Some (mk_record "error" None (Some "Download failed"))
  /\ progress (mk_record "error" None (Some "Download failed"))
     <> progress (mk_record "downloading" (Some (PFloat (Finite (50 # 1)))) None).
Proof.
  split; [reflexivity |]. split; [vm_compute; reflexivity |].
  split; [vm_compute; reflexivity |]. discriminate.
Qed.

(** C4, amended. When the child process ran, its output was read to the
    end and it exited with a non-zero code, the final record has status
    [error] and the message ["Download failed"], and carries no progress
    entry: whatever progress was observed during the run is discarded,
    neither kept nor replaced by 0 or 100. *)
Theorem failed_exit_record (E : env) (url fid i : string) (c : bool) (w : world)
    (title : option string) (formats : list format_info)
    (chosen : format_info) (p : process) :
  get_video_info E url = Returns (InfoOk title formats) ->
  find (has_format_id fid) formats = Some chosen ->
  Popen E (launch_cmd E url fid c chosen) = Returns p ->
  stdout_error p = None ->
  returncode p <> 0%Z ->
  exists r,
    download_status (exec (download_video E url fid i c) w) !! i = Some r
    /\ status r = "error"
    /\ message r = Some "Download failed"
    /\ progress r = None.
Proof.
  intros Hinfo Hfind Hpopen Herr Hrc.
  exists (rec_error "Download failed"). split; [| by repeat split].
  rewrite download_video_final. unfold final_record, exit_record.
  rewrite Hinfo, Hfind, Hpopen, Herr.
  destruct (Z.eqb_spec (returncode p) 0) as [Hz | _]; [by destruct Hrc | done].
Qed.

Lemma failed_exit_record_witness :
  exists r,
    download_status run_failed_exit !! "job" = Some r
    /\ status r = "error"
    /\ message r = Some "Download failed"
    /\ progress r = None.
Proof.
  refine (failed_exit_record env_failed_exit sample_url "18" "job" false
            empty_world (Some "clip") [fmt_audio; fmt_video] fmt_video
            (mk_process ["[download]  50.0% of 10.00MiB at 1.00MiB/s ETA 00:05"]
                        None 1)
            eq_refl eq_refl eq_refl eq_refl _).
  simpl. lia.
Defined.

Lemma find_absent (fid : string) (formats : list format_info) :
  (forall f, In f formats -> format_id f <> Some fid) ->
  find (has_format_id fid) formats = None.
Proof.
  induction formats as [| f rest IH]; intros Hall; [reflexivity |].
  simpl. unfold has_format_id at 1.
  destruct (format_id f) as [j |] eqn:Hj.
  - destruct (String.eqb_spec j fid) as [-> | _].
    + exfalso. apply (Hall f); [by left | exact Hj].
    + apply IH. intros g Hg. apply Hall. by right.
  - apply IH. intros g Hg. apply Hall. by right.
Qed.

(** C5. When the metadata lookup succeeds and no entry of its format
    list carries the requested [format_id], the worker writes the
    starting record and then the error record ["Format not found"], and
    does nothing else: [Popen] is never called and there is no second
    attempt. *)
Theorem missing_format_fails (E : env) (url fid i : string) (c : bool) (w : world)
    (title : option string) (formats : list format_info) :
  get_video_info E url = Returns (InfoOk title formats) ->
  (forall f, In f formats -> format_id f <> Some fid) ->
  events (exec (download_video E url fid i c) w)
  = events w ++ [ Wrote i (mk_record "starting" (Some (PInt 0)) None);
                  Wrote i (mk_record "error" None (Some "Format not found")) ]
  /\ download_status (exec (download_video E url fid i c) w) !! i
     = Some (mk_record "error" None (Some "Format not found"))
  /\ forall cmd,
       In (Spawned cmd) (events (exec (download_video E url fid i c) w)) ->
       In (Spawned cmd) (events w).
Proof.
  intros Hinfo Habsent. apply find_absent in Habsent.
  assert (Htrace : worker_trace E url fid i c
                   = [Wrote i rec_starting; Wrote i (rec_error "Format not found")]).
  { unfold worker_trace. by rewrite Hinfo, Habsent. }
  split; [| split].
  - rewrite exec_download_video, Htrace. reflexivity.
  - rewrite download_video_final. unfold final_record.
    by rewrite Hinfo, Habsent.
  - intros cmd. rewrite exec_download_video, Htrace. cbn [extend events].
    rewrite in_app_iff. intros [Hold | Hnew]; [exact Hold |].
    simpl in Hnew. destruct Hnew as [H | [H | []]]; discriminate H.
Qed.

Lemma missing_format_fails_witness :
  download_status
    (exec (download_video (env_run [] None 0) sample_url "999" "job" false)
          empty_world) !! "job"
  = Some (mk_record "error" None (Some "Format not found")).
Proof.
  refine (proj1 (proj2
            (missing_format_fails (env_run [] None 0) sample_url "999" "job"
               false empty_world (Some "clip") [fmt_audio; fmt_video]
               eq_refl _))).
  intros f [<- | [<- | []]]; discriminate.
Defined.

(** C6, as stated, fails: with the conversion requested for a video
    format, the job goes through [downloading]; no record with the
    converting status is ever written. *)
Lemma convert_requested_video_downloads :
  find (has_format_id "18") [fmt_audio; fmt_video] = Some fmt_video
  /\ type fmt_video = video
  /\ history "job" (events run_video_convert)
     = [ mk_record "starting" (Some (PInt 0)) None;
         mk_record "downloading" (Some (PInt 0)) None;
         mk_record "completed" (Some (PInt 100)) None ].
Proof. repeat split; vm_compute; reflexivity. Qed.

(** C6, amended. The first thing a run writes is the record
    [starting] with progress 0. Once the lookup has found the requested
    format, the next write has progress 0 again and the status
    ["converting to MP3"] exactly when the conversion is requested and
    the chosen format is an audio format; otherwise the status is
    ["downloading"]. *)
Theorem initial_records (E : env) (url fid i : string) (c : bool) (w : world) :
  exists rest,
    events (exec (download_video E url fid i c) w)
    = events w ++ Wrote i (mk_record "starting" (Some (PInt 0)) None) :: rest
    /\ forall title formats chosen,
         get_video_info E url = Returns (InfoOk title formats) ->
         find (has_format_id fid) formats = Some chosen ->
         exists rest',
           rest = Wrote i (mk_record
                             (if is_audio_format chosen && c
                              then "converting to MP3" else "downloading")
                             (Some (PInt 0)) None) :: rest'.
Proof.
  rewrite exec_download_video. unfold worker_trace. cbn [extend events].
  eexists. split; [reflexivity |].
  intros title formats chosen Hinfo Hfind. rewrite Hinfo, Hfind.
  eexists. f_equal. f_equal. unfold launch_record.
  destruct (is_audio_format chosen && c); reflexivity.
Qed.

Lemma initial_records_witness :
  exists rest,
    events (exec (download_video (env_run [] None 0) sample_url "140" "job" true)
                 empty_world)
    = Wrote "job" (mk_record "starting" (Some (PInt 0)) None)
      :: Wrote "job" (mk_record "converting to MP3" (Some (PInt 0)) None)
      :: rest.
Proof.
  destruct (initial_records (env_run [] None 0) sample_url "140" "job" true
              empty_world) as [rest [Hev Hnext]].
  destruct (Hnext (Some "clip") [fmt_audio; fmt_video] fmt_audio
              eq_refl eq_refl) as [rest' Hrest].
  exists rest'. rewrite Hev, Hrest. reflexivity.
Defined.

(** ** The progress parser *)

















(** ** What the worker stores, and where *)

Lemma worker_trace_writes_to (E : env) (url fid i : string) (c : bool) :
  Forall (writes_to i) (worker_trace E url fid i c).
Proof.
  unfold worker_trace. constructor; [reflexivity |].
  destruct (get_video_info E url) as [[err | title formats] | e];
    try (repeat constructor).
  destruct (find (has_format_id fid) formats) as [chosen |];
    [| repeat constructor].
  constructor; [reflexivity |]. constructor; [exact I |].
  destruct (Popen E _) as [p | e]; [| repeat constructor].
  apply Forall_app. split; [apply progress_writes_to | repeat constructor].
Qed.

Lemma progress_writes_stores (P : record -> Prop) (i : string) (r0 : record)
    (lines : list string) :
  (forall line v, In line lines -> progress_of_line line = Some v ->
                  P (with_progress r0 (PFloat v))) ->
  Forall (stores P) (progress_writes i r0 lines).
Proof.
  intros HP. induction lines as [| line rest IH].
  - constructor.
  - rewrite progress_writes_cons.
    assert (Hrest : Forall (stores P) (progress_writes i r0 rest)).
    { apply IH. intros l v Hl. apply HP. by right. }
    destruct (progress_of_line line) as [v |] eqn:Hv; [| exact Hrest].
    constructor; [| exact Hrest]. simpl. apply (HP line); [by left | exact Hv].
Qed.

Lemma launch_record_cases (c : bool) (chosen : format_info) :
  launch_record c chosen = rec_converting \/ launch_record c chosen = rec_downloading.
Proof.
  unfold launch_record. destruct (is_audio_format chosen && c); [by left | by right].
Qed.

(** Every record the worker stores carries one of its five statuses. *)
Lemma worker_trace_statuses (E : env) (url fid i : string) (c : bool) :
  Forall (stores (fun r => worker_status (status r))) (worker_trace E url fid i c).
Proof.
  assert (Herr : forall msg, worker_status (status (rec_error msg))).
  { intros msg. unfold worker_status. simpl. tauto. }
  unfold worker_trace. constructor; [unfold worker_status; simpl; tauto |].
  destruct (get_video_info E url) as [[err | title formats] | e];
    try (constructor; [apply Herr | constructor]).
  destruct (find (has_format_id fid) formats) as [chosen |];
    [| constructor; [apply Herr | constructor]].
  assert (Hrun : worker_status (status (launch_record c chosen))).
  { destruct (launch_record_cases c chosen) as [-> | ->];
      unfold worker_status; simpl; tauto. }
  constructor; [exact Hrun |]. constructor; [exact I |].
  destruct (Popen E _) as [p | e]; [| constructor; [apply Herr | constructor]].
  apply Forall_app. split.
  - apply progress_writes_stores. intros line v _ _. exact Hrun.
  - constructor; [| constructor]. simpl.
    destruct (exit_record_terminal p) as [-> | ->]; unfold worker_status; tauto.
Qed.

Lemma replay_stores (P : record -> Prop) (evs : list event) :
  Forall (stores P) evs ->
  forall reg : gmap string record,
    (forall k r, reg !! k = Some r -> P r) ->
    forall k r, replay evs reg !! k = Some r -> P r.
Proof.
  induction 1 as [| ev evs Hev _ IH]; intros reg Hreg; [exact Hreg |].
  change (replay (ev :: evs) reg) with
    (replay evs (match ev with Wrote j r => <[j := r]> reg | Spawned _ => reg end)).
  apply IH. destruct ev as [j r0 | cmd]; [| exact Hreg].
  intros k r. destruct (decide (j = k)) as [-> | Hne].
  - rewrite lookup_insert_eq. by intros [= <-].
  - rewrite lookup_insert_ne by exact Hne. apply Hreg.
Qed.

Lemma api_download_registry (data : gmap string pyval) (w : world) :
  download_status (exec (api_download data) w) = download_status w.
Proof.
  unfold exec, api_download.
  destruct (negb (forallb truthy _)); reflexivity.
Qed.

(** Serving a request changes the registry at most under the
    identifier of the worker it runs. *)
Lemma serve_other (rq : request) (w : world) (k : string) :
  ~ In k (worker_ids [rq]) ->
  download_status (serve rq w) !! k = download_status w !! k.
Proof.
  destruct rq as [E url fid i c | i | data]; simpl; intros Hk.
  - rewrite exec_download_video. unfold extend. cbn [download_status].
    apply (replay_other i); [apply worker_trace_writes_to |].
    intros ->. apply Hk. by left.
  - reflexivity.
  - by rewrite api_download_registry.
Qed.

Lemma serve_statuses (rq : request) (w : world) :
  (forall k r, download_status w !! k = Some r -> worker_status (status r)) ->
  forall k r, download_status (serve rq w) !! k = Some r -> worker_status (status r).
Proof.
  intros Hw. destruct rq as [E url fid i c | i | data]; simpl.
  - rewrite exec_download_video. unfold extend. cbn [download_status].
    apply (replay_stores (fun r => worker_status (status r)));
      [apply worker_trace_statuses | exact Hw].
  - exact Hw.
  - by rewrite api_download_registry.
Qed.

Lemma worker_ids_cons (rq : request) (rqs : list request) :
  worker_ids (rq :: rqs) = worker_ids [rq] ++ worker_ids rqs.
Proof. unfold worker_ids. simpl. by destruct rq. Qed.

Lemma serve_all_other (rqs : list request) (k : string) :
  ~ In k (worker_ids rqs) ->
  forall w, download_status (serve_all rqs w) !! k = download_status w !! k.
Proof.
  induction rqs as [| rq rest IH]; intros Hk w; [reflexivity |].
  rewrite worker_ids_cons, in_app_iff in Hk.
  change (serve_all (rq :: rest) w) with (serve_all rest (serve rq w)).
  rewrite IH by tauto. apply serve_other. tauto.
Qed.

Lemma serve_all_statuses (rqs : list request) :
  forall w,
    (forall k r, download_status w !! k = Some r -> worker_status (status r)) ->
    forall k r, download_status (serve_all rqs w) !! k = Some r ->
                worker_status (status r).
Proof.
  induction rqs as [| rq rest IH]; intros w Hw; [exact Hw |].
  change (serve_all (rq :: rest) w) with (serve_all rest (serve rq w)).
  apply IH. by apply serve_statuses.
Qed.

(** C7. Start from the empty registry and serve any sequence of worker
    runs, status polls and scheduling requests. An identifier that no
    worker was run for is answered with the record [not_found], and the
    poll leaves the state as it is; no record held by the registry has
    the status [not_found]. *)
Theorem unknown_id_not_found (rqs : list request) (i : string) :
  ~ In i (worker_ids rqs) ->
  get_download_status i (serve_all rqs empty_world)
  = (Ok (mk_record "not_found" None None), serve_all rqs empty_world)
  /\ forall k r,
       download_status (serve_all rqs empty_world) !! k = Some r ->
       status r <> "not_found".
Proof.
  intros Hi. split.
  - unfold get_download_status.
    rewrite (serve_all_other rqs i Hi empty_world). reflexivity.
  - intros k r Hr.
    assert (Hs : worker_status (status r)).
    { apply (serve_all_statuses rqs empty_world) with (k := k); [| exact Hr].
      intros k' r' H'. simpl in H'. by rewrite lookup_empty in H'. }
    unfold worker_status in Hs. intros Heq. rewrite Heq in Hs.
    destruct Hs as [H | [H | [H | [H | H]]]]; discriminate H.
Qed.

Lemma unknown_id_not_found_witness :
  fst (get_download_status "other"
         (serve_all [ RunWorker (env_run [] None 0) sample_url "18" "job" false;
                      PollStatus "job";
                      PostDownload ∅ ] empty_world))
  = Ok (mk_record "not_found" None None).
Proof.
  refine (f_equal fst
            (proj1 (unknown_id_not_found
                      [ RunWorker (env_run [] None 0) sample_url "18" "job" false;
                        PollStatus "job";
                        PostDownload ∅ ] "other" _))).
  simpl. intros [H | []]. discriminate H.
Defined.

(** ** The progress entry *)









(** ** The scheduling endpoint *)

Lemma absent_or_empty_falsy (data : gmap string pyval) (key : string) :
  absent_or_empty data key -> truthy (dict_get data key) = false.
Proof.
  unfold dict_get. intros [-> | [-> | ->]]; reflexivity.
Qed.

(** C10. A request in which [url], [format_id] or [download_id] is
    absent or empty is answered with the error response and status 400;
    the state is left exactly as it was: no thread is started and the
    registry is unchanged. *)
Theorem missing_parameter_rejected (data : gmap string pyval) (w : world) :
  absent_or_empty data "url" \/ absent_or_empty data "format_id"
  \/ absent_or_empty data "download_id" ->
  api_download data w = (Ok (JsonError "Missing required parameters" 400), w).
Proof.
  intros H. unfold api_download.
  assert (Hall : forallb truthy [dict_get data "url"; dict_get data "format_id";
                                 dict_get data "download_id"] = false).
  { simpl. destruct H as [H | [H | H]]; apply absent_or_empty_falsy in H;
      rewrite H; rewrite ?andb_false_r; reflexivity. }
  by rewrite Hall.
Qed.

Lemma missing_parameter_rejected_witness :
  api_download {[ "url" := VStr sample_url; "download_id" := VStr "job";
                  "format_id" := VStr EmptyString ]} run_failed_exit
  = (Ok (JsonError "Missing required parameters" 400), run_failed_exit).
Proof.
  apply missing_parameter_rejected.
  right. left. right. right. vm_compute. reflexivity.
Defined.

(** ** The registry under sequential use *)

(** A poll after a write returns the record written. *)
Lemma get_after_set (i : string) (r : record) (w : world) :
  fst (get_download_status i (exec (set_status i r) w)) = Ok r.
Proof.
  unfold get_download_status, exec. simpl. by rewrite lookup_insert_eq.
Qed.

(** A write leaves the other identifiers alone. *)
Lemma get_after_set_other (i k : string) (r : record) (w : world) :
  i <> k ->
  fst (get_download_status k (exec (set_status i r) w))
  = fst (get_download_status k w).
Proof.
  intros Hne. unfold get_download_status, exec. simpl.
  by rewrite lookup_insert_ne.
Qed.

(** A request with its three fields present and non-empty is
    acknowledged and one thread is started with its arguments. *)
Lemma api_download_schedules (data : gmap string pyval) (w : world) :
  forallb truthy [dict_get data "url"; dict_get data "format_id";
                  dict_get data "download_id"] = true ->
  fst (api_download data w) = Ok (JsonSuccess 200)
  /\ threads (exec (api_download data) w)
     = threads w ++ [(dict_get data "url", dict_get data "format_id",
                      dict_get data "download_id",
                      dict_get_or data "convert_to_mp3" (VBool false))].
Proof.
  intros H. unfold exec, api_download. by rewrite H.
Qed.

(** ** The metadata lookup *)

Lemma classify_dict (d : list (string * pyval)) :
  Lookup.classify (VDict d)
  = Returns (if entry_kept (VDict d)
             then Some (if vcodec_none (VDict d) then audio else video)
             else None).
Proof.
  unfold Lookup.classify, entry_kept, vcodec_none, acodec_none, Lookup.py_get, obind.
  destruct (Lookup.eq_str (default VNone (Lookup.assoc "vcodec" d)) "none");
    destruct (Lookup.eq_str (default VNone (Lookup.assoc "acodec" d)) "none");
    reflexivity.
Qed.

Lemma classify_not_dict (v : pyval) :
  is_dict v = false ->
  Lookup.classify v
  = Raises (mk_exn "AttributeError"
              ("'" ++ Lookup.type_name v ++ "' object has no attribute 'get'")).
Proof. destruct v; (discriminate || reflexivity). Qed.

Lemma build_entry_dict (d : list (string * pyval)) (t : format_type) :
  exists e, Lookup.build_entry (VDict d) t = Returns e
            /\ Lookup.e_type e = t
            /\ (t = (if vcodec_none (VDict d) then audio else video) ->
                entry_from (VDict d) e).
Proof.
  eexists. split; [reflexivity |]. split; [reflexivity |].
  intros ->. unfold entry_from. simpl. repeat split; reflexivity.
Qed.

(** On dictionaries the loop appends, in order, one entry for every
    input that is kept. *)
Lemma collect_dicts (fmts : list pyval) :
  forallb is_dict fmts = true ->
  forall acc, exists es,
    Lookup.collect fmts acc = Returns (acc ++ es)
    /\ Forall2 entry_from (List.filter entry_kept fmts) es.
Proof.
  induction fmts as [| fmt rest IH]; intros Hall acc.
  - exists []. split; [simpl; by rewrite app_nil_r | constructor].
  - simpl in Hall. apply andb_true_iff in Hall as [Hfmt Hrest].
    destruct fmt as [| | | | | | d]; try discriminate Hfmt.
    cbn [Lookup.collect List.filter]. rewrite classify_dict. unfold obind at 1.
    destruct (entry_kept (VDict d)).
    + destruct (build_entry_dict d (if vcodec_none (VDict d) then audio else video))
        as (e & He & _ & Hfrom).
      rewrite He. unfold obind.
      destruct (IH Hrest (acc ++ [e])) as (es & Hes & Hrel).
      exists (e :: es). split.
      * rewrite Hes. by rewrite <- app_assoc.
      * constructor; [by apply Hfrom | exact Hrel].
    + apply IH. exact Hrest.
Qed.

(** The loop stops at the first entry that is not a dictionary. *)
Lemma collect_first_bad (pre : list pyval) (bad : pyval) (post : list pyval) :
  forallb is_dict pre = true -> is_dict bad = false ->
  forall acc,
    Lookup.collect (pre ++ bad :: post) acc
    = Raises (mk_exn "AttributeError"
                ("'" ++ Lookup.type_name bad
                 ++ "' object has no attribute 'get'")).
Proof.
  intros Hpre Hbad. induction pre as [| fmt pre IH]; intros acc.
  - cbn [app Lookup.collect]. by rewrite classify_not_dict.
  - simpl in Hpre. apply andb_true_iff in Hpre as [Hfmt Hpre].
    destruct fmt as [| | | | | | d]; try discriminate Hfmt.
    cbn [app Lookup.collect]. rewrite classify_dict. unfold obind at 1.
    destruct (entry_kept (VDict d)); [| by apply IH].
    destruct (build_entry_dict d (if vcodec_none (VDict d) then audio else video))
      as (e & He & _). rewrite He. unfold obind. by apply IH.
Qed.

(** The lookup after a clean exit whose output decodes to the object
    [obj] with the list [fmts] under ["formats"]. *)
Lemma lookup_body_listed (T : Lookup.tools) (url : pyval)
    (cp : Lookup.completed_process) (obj : list (string * pyval))
    (fmts : list pyval) :
  Lookup.run T (lookup_cmd url) = Returns cp ->
  Lookup.cp_returncode cp = 0%Z ->
  Lookup.loads T (Lookup.cp_stdout cp) = Returns (VDict obj) ->
  Lookup.assoc "formats" obj = Some (VList fmts) ->
  Lookup.get_video_info_body T url
  = obind (Lookup.collect fmts [])
      (fun formats =>
         Returns (Lookup.InfoDict (entry_field "title" (VDict obj))
                                  (entry_field "duration" (VDict obj))
                                  (entry_field "uploader" (VDict obj))
                                  formats)).
Proof.
  intros Hrun Hrc Hloads Hformats.
  unfold Lookup.get_video_info_body. fold (lookup_cmd url).
  rewrite Hrun. unfold obind at 1. rewrite Hrc. cbn [Z.eqb negb].
  rewrite Hloads. unfold obind at 1. unfold Lookup.py_get at 1.
  rewrite Hformats. reflexivity.
Qed.

(** X1. After a clean exit, when every entry of the tool's format list
    is a dictionary, the lookup succeeds and its formats are, in order,
    the entries whose codecs are not both ["none"]; each carries the
    fields of its entry, ["Unknown"] as quality when there is no
    ["format_note"], and the type audio exactly when the video codec is
    ["none"]. *)
Theorem formats_classified (T : Lookup.tools) (url : pyval)
    (cp : Lookup.completed_process) (obj : list (string * pyval))
    (fmts : list pyval) :
  Lookup.run T (lookup_cmd url) = Returns cp ->
  Lookup.cp_returncode cp = 0%Z ->
  Lookup.loads T (Lookup.cp_stdout cp) = Returns (VDict obj) ->
  Lookup.assoc "formats" obj = Some (VList fmts) ->
  forallb is_dict fmts = true ->
  exists formats,
    Lookup.get_video_info T url
    = Lookup.InfoDict (entry_field "title" (VDict obj))
                      (entry_field "duration" (VDict obj))
                      (entry_field "uploader" (VDict obj)) formats
    /\ Forall2 entry_from (List.filter entry_kept fmts) formats.
Proof.
  intros Hrun Hrc Hloads Hformats Hdicts.
  destruct (collect_dicts fmts Hdicts []) as (es & Hes & Hrel).
  exists es. split; [| exact Hrel].
  unfold Lookup.get_video_info.
  rewrite (lookup_body_listed T url cp obj fmts Hrun Hrc Hloads Hformats).
  rewrite Hes. reflexivity.
Qed.

Lemma formats_classified_witness :
  exists formats,
    Lookup.get_video_info (tools_exit 0 "{}" EmptyString sample_metadata)
                          (VStr sample_url)
    = Lookup.InfoDict (VStr "clip") (VInt 212) VNone formats
    /\ Forall2 entry_from (List.filter entry_kept sample_entries) formats.
Proof.
  exact (formats_classified (tools_exit 0 "{}" EmptyString sample_metadata)
           (VStr sample_url) (Lookup.mk_completed 0 "{}" EmptyString)
           [("title", VStr "clip"); ("duration", VInt 212);
            ("formats", VList sample_entries)]
           sample_entries eq_refl eq_refl eq_refl eq_refl eq_refl).
Defined.

(** X2. An entry of the format list that is not a dictionary makes the
    whole lookup an error when the entries before it are dictionaries,
    whatever these and the entries after it are: the message names the
    type of that first malformed entry, and no format is returned. *)
Theorem malformed_entry_rejects_all (T : Lookup.tools) (url : pyval)
    (cp : Lookup.completed_process) (obj : list (string * pyval))
    (pre : list pyval) (bad : pyval) (post : list pyval) :
  Lookup.run T (lookup_cmd url) = Returns cp ->
  Lookup.cp_returncode cp = 0%Z ->
  Lookup.loads T (Lookup.cp_stdout cp) = Returns (VDict obj) ->
  Lookup.assoc "formats" obj = Some (VList (pre ++ bad :: post)) ->
  forallb is_dict pre = true ->
  is_dict bad = false ->
  Lookup.get_video_info T url
  = Lookup.InfoDictError
      ("'" ++ Lookup.type_name bad ++ "' object has no attribute 'get'").
Proof.
  intros Hrun Hrc Hloads Hformats Hpre Hbad.
  unfold Lookup.get_video_info.
  rewrite (lookup_body_listed T url cp obj _ Hrun Hrc Hloads Hformats).
  rewrite (collect_first_bad pre bad post Hpre Hbad). reflexivity.
Qed.

Lemma malformed_entry_rejects_all_witness :
  Lookup.get_video_info
    (tools_exit 0 "{}" EmptyString
       (VDict [("formats", VList (sample_entries ++ [VStr "oops"; VInt 7]))]))
    (VStr sample_url)
  = Lookup.InfoDictError "'str' object has no attribute 'get'".
Proof.
  exact (malformed_entry_rejects_all
           (tools_exit 0 "{}" EmptyString
              (VDict [("formats", VList (sample_entries ++ [VStr "oops"; VInt 7]))]))
           (VStr sample_url) (Lookup.mk_completed 0 "{}" EmptyString)
           [("formats", VList (sample_entries ++ [VStr "oops"; VInt 7]))]
           sample_entries (VStr "oops") [VInt 7]
           eq_refl eq_refl eq_refl eq_refl eq_refl eq_refl).
Defined.

(** X3. After a clean exit whose output decodes to an object: without a
    ["formats"] key the lookup succeeds with no format at all, while a
    ["formats"] key bound to [null], a number or a truth value makes it
    an error that names the type. *)
Theorem formats_key_edge_cases (T : Lookup.tools) (url : pyval)
    (cp : Lookup.completed_process) (obj : list (string * pyval)) :
  Lookup.run T (lookup_cmd url) = Returns cp ->
  Lookup.cp_returncode cp = 0%Z ->
  Lookup.loads T (Lookup.cp_stdout cp) = Returns (VDict obj) ->
  (Lookup.assoc "formats" obj = None ->
   Lookup.get_video_info T url
   = Lookup.InfoDict (entry_field "title" (VDict obj))
                     (entry_field "duration" (VDict obj))
                     (entry_field "uploader" (VDict obj)) [])
  /\ (forall v,
        Lookup.assoc "formats" obj = Some v ->
        (v = VNone \/ (exists b, v = VBool b) \/ (exists z, v = VInt z)
         \/ (exists f, v = VFloat f)) ->
        Lookup.get_video_info T url
        = Lookup.InfoDictError
            ("'" ++ Lookup.type_name v ++ "' object is not iterable")).
Proof.
  intros Hrun Hrc Hloads.
  assert (Hbody : forall o,
    Lookup.assoc "formats" obj = o ->
    Lookup.get_video_info_body T url
    = obind (Lookup.py_iter (default (VList []) o))
        (fun fmts =>
           obind (Lookup.collect fmts [])
             (fun formats =>
                Returns (Lookup.InfoDict (entry_field "title" (VDict obj))
                                         (entry_field "duration" (VDict obj))
                                         (entry_field "uploader" (VDict obj))
                                         formats)))).
  { intros o Ho. unfold Lookup.get_video_info_body. fold (lookup_cmd url).
    rewrite Hrun. unfold obind at 1. rewrite Hrc. cbn [Z.eqb negb].
    rewrite Hloads. unfold obind at 1. unfold Lookup.py_get at 1.
    rewrite Ho. reflexivity. }
  split.
  - intros Hnone. unfold Lookup.get_video_info.
    rewrite (Hbody None Hnone). reflexivity.
  - intros v Hv Hkind. unfold Lookup.get_video_info.
    rewrite (Hbody (Some v) Hv).
    destruct Hkind as [-> | [[b ->] | [[z ->] | [f ->]]]]; reflexivity.
Qed.

Lemma formats_key_edge_cases_witness :
  Lookup.get_video_info
    (tools_exit 0 "{}" EmptyString (VDict [("title", VStr "clip"); ("formats", VNone)]))
    (VStr sample_url)
  = Lookup.InfoDictError "'NoneType' object is not iterable".
Proof.
  exact (proj2 (formats_key_edge_cases
                  (tools_exit 0 "{}" EmptyString
                     (VDict [("title", VStr "clip"); ("formats", VNone)]))
                  (VStr sample_url) (Lookup.mk_completed 0 "{}" EmptyString)
                  [("title", VStr "clip"); ("formats", VNone)]
                  eq_refl eq_refl eq_refl)
               VNone eq_refl (or_introl eq_refl)).
Defined.

(** X4. The lookup reports a description only when the tool exited with
    code 0 and its output decoded to an object; in every other case
    (the tool could not be run, timed out, exited with another code, or
    printed something else) the answer is an error. *)
Theorem success_requires_clean_exit (T : Lookup.tools) (url : pyval)
    (title duration uploader : pyval) (formats : list Lookup.format_entry) :
  Lookup.get_video_info T url = Lookup.InfoDict title duration uploader formats ->
  exists cp obj,
    Lookup.run T (lookup_cmd url) = Returns cp
    /\ Lookup.cp_returncode cp = 0%Z
    /\ Lookup.loads T (Lookup.cp_stdout cp) = Returns (VDict obj).
Proof.
  unfold Lookup.get_video_info, Lookup.get_video_info_body.
  fold (lookup_cmd url).
  destruct (Lookup.run T (lookup_cmd url)) as [cp | e] eqn:Hrun;
    unfold obind at 1.
  - destruct (Z.eqb_spec (Lookup.cp_returncode cp) 0) as [Hrc | _];
      cbn [negb]; [| discriminate].
    destruct (Lookup.loads T (Lookup.cp_stdout cp)) as [v | e] eqn:Hloads;
      unfold obind at 1.
    + destruct v as [| | | | | | obj];
        try (cbn; intros H; discriminate H).
      intros _. by exists cp, obj.
    + destruct (String.eqb (exn_class e) "TimeoutExpired"); discriminate.
  - destruct (String.eqb (exn_class e) "TimeoutExpired"); discriminate.
Qed.

Lemma success_requires_clean_exit_witness :
  exists cp obj,
    Lookup.run (tools_exit 0 "{}" EmptyString (VDict [])) (lookup_cmd (VStr sample_url))
    = Returns cp
    /\ Lookup.cp_returncode cp = 0%Z
    /\ Lookup.loads (tools_exit 0 "{}" EmptyString (VDict [])) (Lookup.cp_stdout cp)
       = Returns (VDict obj).
Proof.
  exact (success_requires_clean_exit (tools_exit 0 "{}" EmptyString (VDict []))
           (VStr sample_url) VNone VNone VNone [] eq_refl).
Defined.

(** ** The worker over the real lookup *)

Lemma worker_trace_lookup_error (E : env) (url fid i : string) (c : bool)
    (msg : string) :
  get_video_info E url = Returns (InfoError msg) ->
  worker_trace E url fid i c = [Wrote i rec_starting; Wrote i (rec_error msg)].
Proof. intros H. unfold worker_trace. by rewrite H. Qed.

Lemma worker_trace_no_format (E : env) (url fid i : string) (c : bool)
    (title : option string) (formats : list format_info) :
  get_video_info E url = Returns (InfoOk title formats) ->
  find (has_format_id fid) formats = None ->
  worker_trace E url fid i c
  = [Wrote i rec_starting; Wrote i (rec_error "Format not found")].
Proof. intros H1 H2. unfold worker_trace. by rewrite H1, H2. Qed.

(** X5. When the tool of the lookup exits with a non-zero code, the job
    ends as an error whose message is ["Failed to fetch video info: "]
    followed by what the tool wrote on its error stream; its output is
    never decoded and no download process is started. *)
Theorem tool_failure_fails_job (T : Lookup.tools) (a v : string)
    (P : list string -> outcome process) (url fid i : string) (c : bool)
    (w : world) (cp : Lookup.completed_process) :
  Lookup.run T (lookup_cmd (VStr url)) = Returns cp ->
  Lookup.cp_returncode cp <> 0%Z ->
  events (exec (download_video (env_with_lookup T a v P) url fid i c) w)
  = events w
    ++ [ Wrote i (mk_record "starting" (Some (PInt 0)) None);
         Wrote i (mk_record "error" None
                    (Some ("Failed to fetch video info: " ++ Lookup.cp_stderr cp)%string)) ].
Proof.
  intros Hrun Hrc. rewrite exec_download_video.
  rewrite (worker_trace_lookup_error _ _ _ _ _
             ("Failed to fetch video info: " ++ Lookup.cp_stderr cp)%string);
    [reflexivity |].
  cbn [get_video_info env_with_lookup]. do 2 f_equal.
  unfold Lookup.get_video_info, Lookup.get_video_info_body.
  fold (lookup_cmd (VStr url)). rewrite Hrun. unfold obind.
  destruct (Z.eqb_spec (Lookup.cp_returncode cp) 0) as [Hz | _];
    [by destruct Hrc | reflexivity].
Qed.

Lemma tool_failure_fails_job_witness :
  events (exec (download_video
                  (env_with_lookup
                     (tools_exit 1 EmptyString "ERROR: Video unavailable" VNone)
                     "/srv/audio" "/srv/video" (popen_quiet 0))
                  sample_url "18" "job" false) empty_world)
  = [ Wrote "job" (mk_record "starting" (Some (PInt 0)) None);
      Wrote "job" (mk_record "error" None
                     (Some "Failed to fetch video info: ERROR: Video unavailable")) ].
Proof.
  refine (tool_failure_fails_job
            (tools_exit 1 EmptyString "ERROR: Video unavailable" VNone)
            "/srv/audio" "/srv/video" (popen_quiet 0) sample_url "18" "job" false
            empty_world (Lookup.mk_completed 1 EmptyString "ERROR: Video unavailable")
            eq_refl _).
  simpl. lia.
Defined.

(** X6. When the tool of the lookup does not answer within its time
    limit, the job ends as an error with the message
    ["Request timed out"], and no download process is started. *)
Theorem lookup_timeout_fails_job (T : Lookup.tools) (a v : string)
    (P : list string -> outcome process) (url fid i : string) (c : bool)
    (w : world) (e : exn) :
  Lookup.run T (lookup_cmd (VStr url)) = Raises e ->
  exn_class e = "TimeoutExpired" ->
  events (exec (download_video (env_with_lookup T a v P) url fid i c) w)
  = events w
    ++ [ Wrote i (mk_record "starting" (Some (PInt 0)) None);
         Wrote i (mk_record "error" None (Some "Request timed out")) ].
Proof.
  intros Hrun Hclass. rewrite exec_download_video.
  rewrite (worker_trace_lookup_error _ _ _ _ _ "Request timed out");
    [reflexivity |].
  cbn [get_video_info env_with_lookup]. do 2 f_equal.
  unfold Lookup.get_video_info, Lookup.get_video_info_body.
  fold (lookup_cmd (VStr url)). rewrite Hrun. unfold obind.
  by rewrite Hclass.
Qed.

Lemma lookup_timeout_fails_job_witness :
  events (exec (download_video
                  (env_with_lookup tools_timeout "/srv/audio" "/srv/video"
                                   (popen_quiet 0))
                  sample_url "18" "job" false) empty_world)
  = [ Wrote "job" (mk_record "starting" (Some (PInt 0)) None);
      Wrote "job" (mk_record "error" None (Some "Request timed out")) ].
Proof.
  exact (lookup_timeout_fails_job tools_timeout "/srv/audio" "/srv/video"
           (popen_quiet 0) sample_url "18" "job" false empty_world
           (mk_exn "TimeoutExpired" "timed out after 30 seconds")
           eq_refl eq_refl).
Defined.

Lemma Forall2_In_r {A B} (R : A -> B -> Prop) (l1 : list A) (l2 : list B) (y : B) :
  Forall2 R l1 l2 -> In y l2 -> exists x, In x l1 /\ R x y.
Proof.
  induction 1 as [| x z l1 l2 Hxz _ IH]; intros Hin; [destruct Hin |].
  destruct Hin as [<- | Hin].
  - exists x. split; [by left | exact Hxz].
  - destruct (IH Hin) as (x' & Hx' & HR). exists x'. split; [by right | exact HR].
Qed.

(** X7. An entry of the tool's output whose two codecs are ["none"]
    cannot be downloaded: when every entry carrying the requested
    identifier is of that kind, the job ends with ["Format not found"]
    although the identifier is listed by the tool, and no process is
    started. *)
Theorem hidden_format_not_found (T : Lookup.tools) (a v : string)
    (P : list string -> outcome process) (url fid i : string) (c : bool)
    (w : world) (cp : Lookup.completed_process)
    (obj : list (string * pyval)) (fmts : list pyval) :
  Lookup.run T (lookup_cmd (VStr url)) = Returns cp ->
  Lookup.cp_returncode cp = 0%Z ->
  Lookup.loads T (Lookup.cp_stdout cp) = Returns (VDict obj) ->
  Lookup.assoc "formats" obj = Some (VList fmts) ->
  forallb is_dict fmts = true ->
  (forall fmt, In fmt fmts -> entry_field "format_id" fmt = VStr fid ->
               entry_kept fmt = false) ->
  events (exec (download_video (env_with_lookup T a v P) url fid i c) w)
  = events w
    ++ [ Wrote i (mk_record "starting" (Some (PInt 0)) None);
         Wrote i (mk_record "error" None (Some "Format not found")) ].
Proof.
  intros Hrun Hrc Hloads Hformats Hdicts Hhidden.
  destruct (collect_dicts fmts Hdicts []) as (es & Hes & Hrel).
  assert (Hinfo : Lookup.get_video_info T (VStr url)
                  = Lookup.InfoDict (entry_field "title" (VDict obj))
                      (entry_field "duration" (VDict obj))
                      (entry_field "uploader" (VDict obj)) es).
  { unfold Lookup.get_video_info.
    rewrite (lookup_body_listed T _ cp obj fmts Hrun Hrc Hloads Hformats).
    by rewrite Hes. }
  rewrite exec_download_video.
  rewrite (worker_trace_no_format _ _ _ _ _
             (str_or_none (entry_field "title" (VDict obj)))
             (map worker_format es)); [reflexivity | |].
  - cbn [get_video_info env_with_lookup]. by rewrite Hinfo.
  - apply find_absent. intros f Hf Hid.
    apply in_map_iff in Hf as (e & <- & He).
    destruct (Forall2_In_r _ _ _ _ Hrel He) as (fmt & Hfmt & Hfrom).
    apply filter_In in Hfmt as [Hin Hkept].
    destruct Hfrom as (Hfid & _).
    unfold worker_format in Hid. cbn [format_id] in Hid.
    rewrite Hfid in Hid.
    destruct (entry_field "format_id" fmt) eqn:Hfield; try discriminate Hid.
    injection Hid as ->.
    rewrite (Hhidden fmt Hin Hfield) in Hkept. discriminate Hkept.
Qed.

Lemma hidden_format_not_found_witness :
  events (exec (download_video
                  (env_with_lookup (tools_exit 0 "{}" EmptyString sample_metadata)
                                   "/srv/audio" "/srv/video" (popen_quiet 0))
                  sample_url "sb0" "job" false) empty_world)
  = [ Wrote "job" (mk_record "starting" (Some (PInt 0)) None);
      Wrote "job" (mk_record "error" None (Some "Format not found")) ].
Proof.
  refine (hidden_format_not_found
            (tools_exit 0 "{}" EmptyString sample_metadata)
            "/srv/audio" "/srv/video" (popen_quiet 0) sample_url "sb0" "job" false
            empty_world (Lookup.mk_completed 0 "{}" EmptyString)
            [("title", VStr "clip"); ("duration", VInt 212);
             ("formats", VList sample_entries)]
            sample_entries eq_refl eq_refl eq_refl eq_refl eq_refl _).
  intros fmt Hin Hid. simpl in Hin.
  destruct Hin as [<- | [<- | [<- | [<- | []]]]];
    (discriminate Hid || reflexivity).
Defined.

(** ** More on the worker *)

(** X8. A run of the worker changes the registry under its own
    identifier only: every other identifier keeps its record (or stays
    unknown), and no thread is started. *)
Theorem worker_frame (E : env) (url fid i : string) (c : bool) (w : world)
    (k : string) :
  k <> i ->
  download_status (exec (download_video E url fid i c) w) !! k
  = download_status w !! k
  /\ threads (exec (download_video E url fid i c) w) = threads w.
Proof.
  intros Hk. rewrite exec_download_video. unfold extend.
  cbn [download_status threads]. split; [| reflexivity].
  apply (replay_other i); [apply worker_trace_writes_to | exact Hk].
Qed.

Lemma worker_frame_witness :
  download_status
    (exec (download_video (env_run [] None 0) sample_url "18" "other" false)
          run_failed_exit) !! "job"
  = download_status run_failed_exit !! "job"
  /\ threads (exec (download_video (env_run [] None 0) sample_url "18" "other" false)
                   run_failed_exit)
     = threads run_failed_exit.
Proof.
  apply worker_frame. discriminate.
Defined.

Lemma replay_progress (i : string) (r0 : record) (ps : list pyfloat) :
  forall (reg : gmap string record) (r : record),
    reg !! i = Some r ->
    replay (map (fun p => Wrote i (with_progress r0 (PFloat p))) ps) reg !! i
    = Some (match last ps with
            | Some p => with_progress r0 (PFloat p)
            | None => r
            end).
Proof.
  induction ps as [| p ps IH]; intros reg r Hr; [exact Hr |].
  change (replay (map (fun p => Wrote i (with_progress r0 (PFloat p))) (p :: ps)) reg)
    with (replay (map (fun p => Wrote i (with_progress r0 (PFloat p))) ps)
            (<[i := with_progress r0 (PFloat p)]> reg)).
  rewrite (IH _ (with_progress r0 (PFloat p))) by apply lookup_insert_eq.
  destruct ps as [| q ps]; [reflexivity |].
  change (last (p :: q :: ps)) with (last (q :: ps)).
  destruct (last (q :: ps)) eqn:Hl; [reflexivity |].
  apply last_None in Hl. discriminate Hl.
Qed.

(** X9. The loop over the output of the child, its lines being ASCII:
    no line makes it raise, whatever it holds; the loop ends normally
    when the stream reaches its end and raises the stream's exception
    when reading the stream raises. Either way the job keeps its status
    and message, and its progress is the percentage of the last line,
    among those read, that yielded one (no maximum, no smoothing); when
    no line yields one the record is left as it was. *)
Theorem monitor_last_wins (i : string) (p : process) (w : world)
    (r0 : record) :
  download_status w !! i = Some r0 ->
  (forall line, In line (stdout p) -> PyStr.is_ascii line = true) ->
  fst ((monitor i (stdout p) ;; end_of_stream p)%py w)
  = match stdout_error p with
    | None => Ok tt
    | Some e => Raise e
    end
  /\ download_status (snd ((monitor i (stdout p) ;; end_of_stream p)%py w)) !! i
     = Some (match last (omap progress_of_line (stdout p)) with
             | Some v => mk_record (status r0) (Some (PFloat v)) (message r0)
             | None => r0
             end).
Proof.
  intros Hr0 _. rewrite bind_run, (monitor_run i (stdout p) w r0 Hr0).
  cbn [fst snd]. unfold end_of_stream.
  assert (Hreg : download_status (extend w (progress_writes i r0 (stdout p))) !! i
                 = Some (match last (omap progress_of_line (stdout p)) with
                         | Some v => mk_record (status r0) (Some (PFloat v)) (message r0)
                         | None => r0
                         end)).
  { cbn [extend download_status]. unfold progress_writes.
    by rewrite (replay_progress i r0 _ _ r0 Hr0). }
  destruct (stdout_error p) as [e |]; (split; [reflexivity | exact Hreg]).
Qed.

Lemma monitor_last_wins_witness :
  fst ((monitor "job" ["[download]  55.0% of 10.00MiB"; "Merging formats...";
                       "[download]  10.0% of 10.00MiB"; "[download]  %"] ;;
        end_of_stream
          (mk_process ["[download]  55.0% of 10.00MiB"; "Merging formats...";
                       "[download]  10.0% of 10.00MiB"; "[download]  %"]
                      (Some (mk_exn "UnicodeDecodeError" "invalid start byte"))
                      0))%py run_video_convert)
  = Raise (mk_exn "UnicodeDecodeError" "invalid start byte")
  /\ download_status
       (snd ((monitor "job" ["[download]  55.0% of 10.00MiB"; "Merging formats...";
                             "[download]  10.0% of 10.00MiB"; "[download]  %"] ;;
              end_of_stream
                (mk_process ["[download]  55.0% of 10.00MiB"; "Merging formats...";
                             "[download]  10.0% of 10.00MiB"; "[download]  %"]
                            (Some (mk_exn "UnicodeDecodeError" "invalid start byte"))
                            0))%py run_video_convert)) !! "job"
     = Some (mk_record "completed" (Some (PFloat (Finite (10 # 1)))) None).
Proof.
  refine (monitor_last_wins "job"
            (mk_process ["[download]  55.0% of 10.00MiB"; "Merging formats...";
                         "[download]  10.0% of 10.00MiB"; "[download]  %"]
                        (Some (mk_exn "UnicodeDecodeError" "invalid start byte"))
                        0)
            run_video_convert rec_completed eq_refl _).
  intros line Hline. simpl in Hline.
  destruct Hline as [<- | [<- | [<- | [<- | []]]]]; reflexivity.
Defined.

Lemma spawned_app (a b : list event) : spawned (a ++ b) = spawned a ++ spawned b.
Proof.
  unfold spawned. induction a as [| ev a IH]; [reflexivity |].
  destruct ev as [j r | cmd]; cbn; [exact IH | by rewrite IH].
Qed.

Lemma spawned_progress_writes (i : string) (r0 : record) (lines : list string) :
  spawned (progress_writes i r0 lines) = [].
Proof.
  unfold progress_writes. induction (omap progress_of_line lines); [reflexivity |].
  exact IHl.
Qed.

(** X10. A run of the worker calls [Popen] at most once: once, with the
    command built for the chosen format, when the lookup succeeded and
    lists the requested format, and not at all otherwise. *)
Theorem one_process_per_run (E : env) (url fid i : string) (c : bool) (w : world) :
  exists evs,
    events (exec (download_video E url fid i c) w) = events w ++ evs
    /\ spawned evs
       = match get_video_info E url with
         | Returns (InfoOk _ formats) =>
             match find (has_format_id fid) formats with
             | Some chosen => [launch_cmd E url fid c chosen]
             | None => []
             end
         | _ => []
         end.
Proof.
  exists (worker_trace E url fid i c). split; [by rewrite exec_download_video |].
  unfold worker_trace.
  destruct (get_video_info E url) as [[err | title formats] | e]; try reflexivity.
  destruct (find (has_format_id fid) formats) as [chosen |]; [| reflexivity].
  cbn [spawned omap list_omap]. f_equal.
  destruct (Popen E (launch_cmd E url fid c chosen)) as [p | e]; [| reflexivity].
  fold (spawned (progress_writes i (launch_record c chosen) (stdout p)
                 ++ [Wrote i (exit_record p)])).
  by rewrite spawned_app, spawned_progress_writes.
Qed.

(** ** The routes *)

(** X11. The route of the lookup rejects a request without a URL with
    status 400, whatever the tools would do; with a URL, a failure of
    the tool is answered with status 200 and the error as the body. *)
Theorem api_info_answers (T : Lookup.tools) (data : gmap string pyval) :
  (absent_or_empty data "url" ->
   api_info T data = InfoRejected "URL is required" 400)
  /\ (forall u cp,
        data !! "url" = Some (VStr u) -> u <> EmptyString ->
        Lookup.run T (lookup_cmd (VStr u)) = Returns cp ->
        Lookup.cp_returncode cp <> 0%Z ->
        api_info T data
        = InfoAnswer (Lookup.InfoDictError
                        ("Failed to fetch video info: " ++ Lookup.cp_stderr cp)%string)
                     200).
Proof.
  split.
  - intros H. unfold api_info. by rewrite (absent_or_empty_falsy data "url" H).
  - intros u cp Hu Hne Hrun Hrc. unfold api_info, dict_get. rewrite Hu.
    change (default VNone (Some (VStr u))) with (VStr u). cbn [truthy].
    destruct (String.eqb_spec u EmptyString) as [-> | _]; [by destruct Hne |].
    cbn [negb]. f_equal.
    unfold Lookup.get_video_info, Lookup.get_video_info_body.
    fold (lookup_cmd (VStr u)). rewrite Hrun. unfold obind.
    destruct (Z.eqb_spec (Lookup.cp_returncode cp) 0) as [Hz | _];
      [by destruct Hrc | reflexivity].
Qed.

Lemma api_info_answers_witness :
  api_info (tools_exit 1 EmptyString "ERROR: Video unavailable" VNone)
           {[ "url" := VStr sample_url ]}
  = InfoAnswer (Lookup.InfoDictError
                  "Failed to fetch video info: ERROR: Video unavailable") 200.
Proof.
  refine (proj2 (api_info_answers
                   (tools_exit 1 EmptyString "ERROR: Video unavailable" VNone)
                   {[ "url" := VStr sample_url ]})
                sample_url (Lookup.mk_completed 1 EmptyString "ERROR: Video unavailable")
                eq_refl _ eq_refl _).
  - discriminate.
  - simpl. lia.
Defined.

(** X12. A scheduling request whose three fields are non-empty strings
    is acknowledged with the success response and starts exactly one
    thread, with the values of the request ([convert_to_mp3] being
    false when not given). The handler looks nothing up: this holds
    whatever the registry holds under the identifier, one in use
    included. *)
Theorem schedule_starts_thread (data : gmap string pyval) (w : world)
    (u f i : string) :
  data !! "url" = Some (VStr u) -> u <> EmptyString ->
  data !! "format_id" = Some (VStr f) -> f <> EmptyString ->
  data !! "download_id" = Some (VStr i) -> i <> EmptyString ->
  fst (api_download data w) = Ok (JsonSuccess 200)
  /\ threads (exec (api_download data) w)
     = threads w ++ [(VStr u, VStr f, VStr i,
                      match data !! "convert_to_mp3" with
                      | Some v => v
                      | None => VBool false
                      end)].
Proof.
  intros Hu Hune Hf Hfne Hi Hine.
  assert (Hall : forallb truthy [dict_get data "url"; dict_get data "format_id";
                                 dict_get data "download_id"] = true).
  { unfold dict_get. rewrite Hu, Hf, Hi. cbn [default from_option id forallb truthy].
    destruct (String.eqb_spec u EmptyString) as [-> | _]; [by destruct Hune |].
    destruct (String.eqb_spec f EmptyString) as [-> | _]; [by destruct Hfne |].
    destruct (String.eqb_spec i EmptyString) as [-> | _]; [by destruct Hine |].
    reflexivity. }
  unfold exec, api_download. rewrite Hall. cbn [negb].
  unfold dict_get, dict_get_or. rewrite Hu, Hf, Hi.
  split; [reflexivity |]. cbn. by destruct (data !! "convert_to_mp3").
Qed.

Lemma schedule_starts_thread_witness :
  fst (api_download {[ "url" := VStr sample_url; "format_id" := VStr "18";
                       "download_id" := VStr "job" ]} run_failed_exit)
  = Ok (JsonSuccess 200)
  /\ threads (exec (api_download {[ "url" := VStr sample_url;
                                    "format_id" := VStr "18";
                                    "download_id" := VStr "job" ]})
                   run_failed_exit)
     = [(VStr sample_url, VStr "18", VStr "job", VBool false)].
Proof.
  refine (schedule_starts_thread
            {[ "url" := VStr sample_url; "format_id" := VStr "18";
               "download_id" := VStr "job" ]}
            run_failed_exit sample_url "18" "job" _ _ _ _ _ _);
    (vm_compute; reflexivity) || discriminate.
Defined.

(** ** Start-up: the directories *)

Lemma node_at_snoc (fs : gmap (list string) Setup.node) (l : list string)
    (x : string) :
  Setup.node_at fs (l ++ [x]) = fs !! (l ++ [x]).
Proof. by destruct l. Qed.

Lemma snoc_neq_self (l : list string) (x : string) : l ++ [x] <> l.
Proof.
  intros H. apply (f_equal (@List.length string)) in H.
  rewrite length_app in H. simpl in H. lia.
Qed.

Lemma with_files_id (m : Setup.machine) : Setup.with_files m (Setup.files m) = m.
Proof. by destruct m. Qed.

(** [mkdir(exist_ok=True)] below an existing directory, on a path that
    is not a regular file: the path is a directory afterwards. *)
Lemma mkdir_exist_ok_ok (l : list string) (x : string) (m : Setup.machine) :
  Setup.node_at (Setup.files m) l = Some Setup.Dir ->
  Setup.files m !! (l ++ [x]) <> Some Setup.File ->
  Setup.mkdir_exist_ok (l ++ [x]) m
  = (Returns tt, Setup.with_files m (<[l ++ [x] := Setup.Dir]> (Setup.files m))).
Proof.
  intros Hparent Hnofile.
  unfold Setup.mkdir_exist_ok, Setup.os_mkdir.
  rewrite removelast_last, Hparent, node_at_snoc.
  destruct (Setup.files m !! (l ++ [x])) as [[|] |] eqn:Hp.
  - cbn. rewrite node_at_snoc, Hp.
    by rewrite insert_id, with_files_id.
  - by destruct Hnofile.
  - reflexivity.
Qed.

(** On a path that already is a directory, with a parent that exists,
    nothing happens. *)
Lemma mkdir_exist_ok_noop (l : list string) (x : string) (m : Setup.machine) :
  Setup.files m !! (l ++ [x]) = Some Setup.Dir ->
  Setup.node_at (Setup.files m) l <> None ->
  Setup.mkdir_exist_ok (l ++ [x]) m = (Returns tt, m).
Proof.
  intros Hp Hparent.
  unfold Setup.mkdir_exist_ok, Setup.os_mkdir.
  rewrite removelast_last, node_at_snoc, Hp.
  destruct (Setup.node_at (Setup.files m) l) as [[|] |]; [| | by destruct Hparent];
    cbn; by rewrite node_at_snoc, Hp.
Qed.

(** The three outcomes of [mkdir(exist_ok=True)]. *)
Lemma mkdir_exist_ok_cases (l : list string) (x : string) (m : Setup.machine) :
  (Setup.mkdir_exist_ok (l ++ [x]) m = (Returns tt, m)
   /\ Setup.files m !! (l ++ [x]) = Some Setup.Dir
   /\ Setup.node_at (Setup.files m) l <> None)
  \/ (Setup.mkdir_exist_ok (l ++ [x]) m
      = (Returns tt, Setup.with_files m (<[l ++ [x] := Setup.Dir]> (Setup.files m)))
      /\ Setup.files m !! (l ++ [x]) = None
      /\ Setup.node_at (Setup.files m) l = Some Setup.Dir)
  \/ (exists e, Setup.mkdir_exist_ok (l ++ [x]) m = (Raises e, m)).
Proof.
  unfold Setup.mkdir_exist_ok, Setup.os_mkdir.
  rewrite removelast_last, node_at_snoc.
  destruct (Setup.node_at (Setup.files m) l) as [[|] |] eqn:Hparent.
  - destruct (Setup.files m !! (l ++ [x])) as [[|] |] eqn:Hp.
    + left. cbn. rewrite node_at_snoc, Hp. by repeat split.
    + right. right. cbn. rewrite node_at_snoc, Hp. by eexists.
    + right. left. by repeat split.
  - cbn. rewrite node_at_snoc.
    destruct (Setup.files m !! (l ++ [x])) as [[|] |] eqn:Hp.
    + left. by repeat split.
    + right. right. by eexists.
    + right. right. by eexists.
  - right. right. cbn. by eexists.
Qed.

Lemma grows_refl (S : list (list string)) (fs : gmap (list string) Setup.node) :
  Setup.grows S fs fs.
Proof. intros q n. split; [done | by left]. Qed.

Lemma grows_trans (S : list (list string)) (a b c : gmap (list string) Setup.node) :
  Setup.grows S a b -> Setup.grows S b c -> Setup.grows S a c.
Proof.
  intros Hab Hbc q n. split.
  - intros H. by apply Hbc, Hab.
  - intros H. apply Hbc in H as [H | H]; [by apply Hab | by right].
Qed.

Lemma grows_insert (S : list (list string)) (fs : gmap (list string) Setup.node)
    (p : list string) :
  fs !! p = None -> In p S -> Setup.grows S fs (<[p := Setup.Dir]> fs).
Proof.
  intros Hnone Hin q n. destruct (decide (p = q)) as [<- | Hne].
  - rewrite lookup_insert_eq, Hnone. split; [discriminate |].
    intros [= <-]. by right.
  - rewrite lookup_insert_ne by exact Hne. split; [done | by left].
Qed.

Lemma mkdir_exist_ok_grows (S : list (list string)) (l : list string) (x : string)
    (m : Setup.machine) :
  In (l ++ [x]) S ->
  Setup.grows S (Setup.files m) (Setup.files (snd (Setup.mkdir_exist_ok (l ++ [x]) m))).
Proof.
  intros Hin.
  destruct (mkdir_exist_ok_cases l x m) as [(-> & _) | [(-> & Hnone & _) | (e & ->)]];
    cbn [snd].
  - apply grows_refl.
  - by apply grows_insert.
  - apply grows_refl.
Qed.

Lemma io_bind_grows {A B} (S : list (list string)) (c : Setup.IO A)
    (k : A -> Setup.IO B) :
  (forall m, Setup.grows S (Setup.files m) (Setup.files (snd (c m)))) ->
  (forall a m, Setup.grows S (Setup.files m) (Setup.files (snd (k a m)))) ->
  forall m, Setup.grows S (Setup.files m) (Setup.files (snd (Setup.io_bind c k m))).
Proof.
  intros Hc Hk m. unfold Setup.io_bind. specialize (Hc m).
  destruct (c m) as [[a | e] m']; cbn [snd] in *; [| exact Hc].
  eapply grows_trans; [exact Hc | apply Hk].
Qed.

Lemma print_files (s : string) (m : Setup.machine) :
  Setup.files (snd (Setup.print s m)) = Setup.files m.
Proof. reflexivity. Qed.

(** The directories made by [dirs l]: [l/youtubestuff] and its two
    children; [setup_directories] and [create_directories] differ in
    the line they print. *)
Lemma make_directories_grows (l : list string) (s : string) (m : Setup.machine) :
  Setup.grows
    [l ++ ["youtubestuff"]; (l ++ ["youtubestuff"]) ++ ["audio"];
     (l ++ ["youtubestuff"]) ++ ["video"]]
    (Setup.files m)
    (Setup.files
       (snd (Setup.io_bind (Setup.mkdir_exist_ok (l ++ ["youtubestuff"]))
               (fun _ =>
                  Setup.io_bind
                    (Setup.mkdir_exist_ok ((l ++ ["youtubestuff"]) ++ ["audio"]))
                    (fun _ =>
                       Setup.io_bind
                         (Setup.mkdir_exist_ok ((l ++ ["youtubestuff"]) ++ ["video"]))
                         (fun _ => Setup.print s))) m))).
Proof.
  revert m. apply io_bind_grows.
  - intros m. apply mkdir_exist_ok_grows. by left.
  - intros _. apply io_bind_grows.
    + intros m. apply mkdir_exist_ok_grows. right. by left.
    + intros _. apply io_bind_grows.
      * intros m. apply mkdir_exist_ok_grows. right. right. by left.
      * intros _ m. rewrite print_files. apply grows_refl.
Qed.

Lemma make_directories_ok (l : list string) (s : string) (m : Setup.machine) :
  Setup.node_at (Setup.files m) l = Some Setup.Dir ->
  Setup.files m !! (l ++ ["youtubestuff"]) <> Some Setup.File ->
  Setup.files m !! ((l ++ ["youtubestuff"]) ++ ["audio"]) <> Some Setup.File ->
  Setup.files m !! ((l ++ ["youtubestuff"]) ++ ["video"]) <> Some Setup.File ->
  Setup.io_bind (Setup.mkdir_exist_ok (l ++ ["youtubestuff"]))
    (fun _ =>
       Setup.io_bind (Setup.mkdir_exist_ok ((l ++ ["youtubestuff"]) ++ ["audio"]))
         (fun _ =>
            Setup.io_bind
              (Setup.mkdir_exist_ok ((l ++ ["youtubestuff"]) ++ ["video"]))
              (fun _ => Setup.print s))) m
  = (Returns tt,
     {| Setup.files :=
          <[(l ++ ["youtubestuff"]) ++ ["video"] := Setup.Dir]>
            (<[(l ++ ["youtubestuff"]) ++ ["audio"] := Setup.Dir]>
               (<[l ++ ["youtubestuff"] := Setup.Dir]> (Setup.files m)));
        Setup.commands := Setup.commands m;
        Setup.printed := Setup.printed m ++ [s] |}).
Proof.
  intros Hcwd HD HA HV.
  unfold Setup.io_bind.
  rewrite (mkdir_exist_ok_ok l "youtubestuff" m Hcwd HD).
  pose proof (fun fs => node_at_snoc fs l "youtubestuff") as HnD.
  set (D := l ++ ["youtubestuff"]) in *.
  assert (HAD : D ++ ["audio"] <> D) by apply snoc_neq_self.
  assert (HVD : D ++ ["video"] <> D) by apply snoc_neq_self.
  assert (HVA : D ++ ["video"] <> D ++ ["audio"]).
  { intros H. apply app_inj_tail in H as [_ H]. discriminate H. }
  rewrite (mkdir_exist_ok_ok D "audio").
  - rewrite (mkdir_exist_ok_ok D "video").
    + reflexivity.
    + cbn [Setup.with_files Setup.files]. rewrite HnD.
      rewrite lookup_insert_ne by (intros H; by apply HAD).
      apply lookup_insert_eq.
    + cbn [Setup.with_files Setup.files].
      rewrite lookup_insert_ne by (intros H; by apply HVA).
      rewrite lookup_insert_ne by (intros H; by apply HVD).
      exact HV.
  - cbn [Setup.with_files Setup.files]. rewrite HnD. apply lookup_insert_eq.
  - cbn [Setup.with_files Setup.files].
    rewrite lookup_insert_ne by (intros H; by apply HAD). exact HA.
Qed.

Lemma setup_directories_run (H : Setup.host) (m : Setup.machine) :
  Setup.node_at (Setup.files m) (Setup.cwd H) = Some Setup.Dir ->
  Setup.files m !! Setup.DOWNLOAD_DIR H <> Some Setup.File ->
  Setup.files m !! Setup.AUDIO_DIR H <> Some Setup.File ->
  Setup.files m !! Setup.VIDEO_DIR H <> Some Setup.File ->
  fst (Setup.setup_directories H m) = Returns tt
  /\ Setup.files (snd (Setup.setup_directories H m)) !! Setup.DOWNLOAD_DIR H
     = Some Setup.Dir
  /\ Setup.files (snd (Setup.setup_directories H m)) !! Setup.AUDIO_DIR H
     = Some Setup.Dir
  /\ Setup.files (snd (Setup.setup_directories H m)) !! Setup.VIDEO_DIR H
     = Some Setup.Dir.
Proof.
  intros Hcwd HD HA HV.
  unfold Setup.setup_directories, Setup.AUDIO_DIR, Setup.VIDEO_DIR,
    Setup.DOWNLOAD_DIR in *.
  rewrite (make_directories_ok (Setup.cwd H) _ m Hcwd HD HA HV).
  cbn [fst snd Setup.files].
  set (D := Setup.cwd H ++ ["youtubestuff"]).
  assert (HAD : D ++ ["audio"] <> D) by apply snoc_neq_self.
  assert (HVD : D ++ ["video"] <> D) by apply snoc_neq_self.
  assert (HVA : D ++ ["video"] <> D ++ ["audio"]).
  { intros E. apply app_inj_tail in E as [_ E]. discriminate E. }
  repeat split.
  - rewrite !lookup_insert_ne by done. apply lookup_insert_eq.
  - rewrite lookup_insert_ne by done. apply lookup_insert_eq.
  - apply lookup_insert_eq.
Qed.

(** X13. Started in an existing directory where none of
    [youtubestuff], [youtubestuff/audio] and [youtubestuff/video] is a
    regular file, [setup_directories] returns normally and the three
    are directories afterwards, whether they existed before or not. *)
Theorem setup_directories_creates (H : Setup.host) (m : Setup.machine) :
  Setup.node_at (Setup.files m) (Setup.cwd H) = Some Setup.Dir ->
  Setup.files m !! Setup.DOWNLOAD_DIR H <> Some Setup.File ->
  Setup.files m !! Setup.AUDIO_DIR H <> Some Setup.File ->
  Setup.files m !! Setup.VIDEO_DIR H <> Some Setup.File ->
  fst (Setup.setup_directories H m) = Returns tt
  /\ Setup.files (snd (Setup.setup_directories H m)) !! Setup.DOWNLOAD_DIR H
     = Some Setup.Dir
  /\ Setup.files (snd (Setup.setup_directories H m)) !! Setup.AUDIO_DIR H
     = Some Setup.Dir
  /\ Setup.files (snd (Setup.setup_directories H m)) !! Setup.VIDEO_DIR H
     = Some Setup.Dir.
Proof. exact (setup_directories_run H m). Qed.

Lemma setup_directories_creates_witness :
  Setup.files
    (snd (Setup.setup_directories (Setup.sample_host None None (Returns tt))
                                  Setup.sample_machine))
    !! ["home"; "youtubestuff"; "audio"]
  = Some Setup.Dir.
Proof.
  refine (proj1 (proj2 (proj2
            (setup_directories_creates (Setup.sample_host None None (Returns tt))
               Setup.sample_machine _ _ _ _))));
    vm_compute; (reflexivity || discriminate).
Defined.

(** X14. Whatever the outcome, [setup_directories] removes and changes
    nothing: every file or directory present before is present
    afterwards, with the same kind, and anything new is a directory at
    one of the three paths. *)
Theorem setup_directories_only_adds (H : Setup.host) (m : Setup.machine) :
  Setup.grows [Setup.DOWNLOAD_DIR H; Setup.AUDIO_DIR H; Setup.VIDEO_DIR H]
    (Setup.files m) (Setup.files (snd (Setup.setup_directories H m))).
Proof.
  unfold Setup.setup_directories, Setup.AUDIO_DIR, Setup.VIDEO_DIR,
    Setup.DOWNLOAD_DIR.
  apply make_directories_grows.
Qed.

Lemma node_at_grows (S : list (list string)) (fs fs' : gmap (list string) Setup.node)
    (p : list string) :
  Setup.grows S fs fs' -> Setup.node_at fs p <> None -> Setup.node_at fs' p <> None.
Proof.
  intros Hg. destruct p as [| c p]; [done |]. cbn.
  destruct (fs !! (c :: p)) as [n |] eqn:Hp; [| done].
  intros _. by rewrite (proj1 (Hg (c :: p) n) Hp).
Qed.

(** What a normal return of [mkdir(exist_ok=True)] tells. *)
Lemma mkdir_exist_ok_returns (l : list string) (x : string) (m m' : Setup.machine) :
  Setup.mkdir_exist_ok (l ++ [x]) m = (Returns tt, m') ->
  Setup.files m' !! (l ++ [x]) = Some Setup.Dir
  /\ Setup.node_at (Setup.files m') l <> None
  /\ Setup.grows [l ++ [x]] (Setup.files m) (Setup.files m').
Proof.
  intros Hrun.
  destruct (mkdir_exist_ok_cases l x m)
    as [(Heq & Hp & Hparent) | [(Heq & Hnone & Hparent) | (e & Heq)]];
    rewrite Heq in Hrun; [| | discriminate Hrun].
  - injection Hrun as <-. split; [exact Hp |]. split; [exact Hparent |].
    apply grows_refl.
  - injection Hrun as <-. cbn [Setup.with_files Setup.files].
    split; [apply lookup_insert_eq |]. split.
    + apply (node_at_grows [l ++ [x]] (Setup.files m)).
      * apply grows_insert; [exact Hnone | by left].
      * by rewrite Hparent.
    + apply grows_insert; [exact Hnone | by left].
Qed.

(** X15. [setup_directories] can be repeated: after a run that returned
    normally, a second run returns normally too and leaves the tree as
    it is. *)
Theorem setup_directories_idempotent (H : Setup.host) (m m' : Setup.machine) :
  Setup.setup_directories H m = (Returns tt, m') ->
  fst (Setup.setup_directories H m') = Returns tt
  /\ Setup.files (snd (Setup.setup_directories H m')) = Setup.files m'.
Proof.
  unfold Setup.setup_directories, Setup.AUDIO_DIR, Setup.VIDEO_DIR,
    Setup.DOWNLOAD_DIR.
  set (D := Setup.cwd H ++ ["youtubestuff"]).
  pose proof (fun fs => node_at_snoc fs (Setup.cwd H) "youtubestuff") as HnD.
  fold D in HnD.
  unfold Setup.io_bind at 1.
  destruct (Setup.mkdir_exist_ok D m) as [[[] | e] m1] eqn:H1; [| discriminate].
  unfold Setup.io_bind at 1.
  destruct (Setup.mkdir_exist_ok (D ++ ["audio"]) m1) as [[[] | e] m2] eqn:H2;
    [| discriminate].
  unfold Setup.io_bind at 1.
  destruct (Setup.mkdir_exist_ok (D ++ ["video"]) m2) as [[[] | e] m3] eqn:H3;
    [| discriminate].
  intros Hprint. injection Hprint as <-.
  apply mkdir_exist_ok_returns in H1 as (HD1 & Hcwd1 & _).
  apply mkdir_exist_ok_returns in H2 as (HA2 & _ & Hg2).
  apply mkdir_exist_ok_returns in H3 as (HV3 & _ & Hg3).
  assert (HD3 : Setup.files m3 !! D = Some Setup.Dir).
  { by apply Hg3, Hg2. }
  assert (HA3 : Setup.files m3 !! (D ++ ["audio"]) = Some Setup.Dir).
  { by apply Hg3. }
  assert (Hcwd3 : Setup.node_at (Setup.files m3) (Setup.cwd H) <> None).
  { apply (node_at_grows _ _ _ _ Hg3), (node_at_grows _ _ _ _ Hg2), Hcwd1. }
  assert (HnD3 : Setup.node_at (Setup.files m3) D <> None).
  { by rewrite HnD, HD3. }
  unfold Setup.io_bind.
  rewrite (mkdir_exist_ok_noop (Setup.cwd H) "youtubestuff") by assumption.
  fold D.
  rewrite (mkdir_exist_ok_noop D "audio") by assumption.
  rewrite (mkdir_exist_ok_noop D "video") by assumption.
  split; reflexivity.
Qed.

Lemma setup_directories_idempotent_witness :
  Setup.files
    (snd (Setup.setup_directories (Setup.sample_host None None (Returns tt))
            (snd (Setup.setup_directories (Setup.sample_host None None (Returns tt))
                                          Setup.sample_machine))))
  = Setup.files
      (snd (Setup.setup_directories (Setup.sample_host None None (Returns tt))
                                    Setup.sample_machine)).
Proof.
  exact (proj2 (setup_directories_idempotent
                  (Setup.sample_host None None (Returns tt)) Setup.sample_machine
                  (snd (Setup.setup_directories
                          (Setup.sample_host None None (Returns tt))
                          Setup.sample_machine))
                  eq_refl)).
Defined.

(** ** Start-up: the dependencies *)

Lemma check_dependencies_run (H : Setup.host) (m : Setup.machine) :
  Setup.files (snd (Setup.check_dependencies H m)) = Setup.files m
  /\ Setup.commands (snd (Setup.check_dependencies H m))
     = Setup.commands m
       ++ match Setup.which H "yt-dlp" with
          | Some _ => []
          | None => [Setup.pip_install_ytdlp H]
          end
  /\ fst (Setup.check_dependencies H m)
     = match Setup.which H "yt-dlp" with
       | Some _ => Returns tt
       | None => Setup.checked H (Setup.pip_install_ytdlp H)
       end.
Proof.
  unfold Setup.check_dependencies, Setup.io_bind, Setup.command_exists,
    Setup.io_ret, Setup.print, Setup.run_checked, Setup.pip_install_ytdlp.
  destruct (Setup.which H "yt-dlp") as [path |]; cbn.
  - destruct (Setup.which H "ffmpeg"); cbn; by rewrite app_nil_r.
  - destruct (Setup.checked H _) as [[] | e]; cbn; [| done].
    destruct (Setup.which H "ffmpeg"); cbn; done.
Qed.

(** X16. [check_dependencies] runs at most one command: none when
    [yt-dlp] is found, and otherwise the installation of [yt-dlp],
    whose failure it lets through. Whether [ffmpeg] is found changes
    neither the commands run nor the outcome. *)
Theorem check_dependencies_effects (H : Setup.host) (m : Setup.machine) :
  Setup.commands (snd (Setup.check_dependencies H m))
  = Setup.commands m
    ++ match Setup.which H "yt-dlp" with
       | Some _ => []
       | None => [[Setup.executable H; "-m"; "pip"; "install"; "yt-dlp"]]
       end
  /\ fst (Setup.check_dependencies H m)
     = match Setup.which H "yt-dlp" with
       | Some _ => Returns tt
       | None => Setup.checked H [Setup.executable H; "-m"; "pip"; "install"; "yt-dlp"]
       end.
Proof. exact (proj2 (check_dependencies_run H m)). Qed.

(** X17. The directories come first: when [yt-dlp] is missing and its
    installation fails, constructing the downloader raises the error of
    the installation, and the three directories have been made all the
    same. *)
Theorem init_fails_after_directories (H : Setup.host) (m : Setup.machine) (e : exn) :
  Setup.which H "yt-dlp" = None ->
  Setup.checked H (Setup.pip_install_ytdlp H) = Raises e ->
  Setup.node_at (Setup.files m) (Setup.cwd H) = Some Setup.Dir ->
  Setup.files m !! Setup.DOWNLOAD_DIR H <> Some Setup.File ->
  Setup.files m !! Setup.AUDIO_DIR H <> Some Setup.File ->
  Setup.files m !! Setup.VIDEO_DIR H <> Some Setup.File ->
  fst (Setup.init H m) = Raises e
  /\ Setup.files (snd (Setup.init H m)) !! Setup.DOWNLOAD_DIR H = Some Setup.Dir
  /\ Setup.files (snd (Setup.init H m)) !! Setup.AUDIO_DIR H = Some Setup.Dir
  /\ Setup.files (snd (Setup.init H m)) !! Setup.VIDEO_DIR H = Some Setup.Dir.
Proof.
  intros Hwhich Hpip Hcwd HD HA HV.
  destruct (setup_directories_run H m Hcwd HD HA HV) as (Hret & HD' & HA' & HV').
  unfold Setup.init, Setup.io_bind.
  destruct (Setup.setup_directories H m) as [[[] | e'] m1]; cbn [fst snd] in *;
    [| discriminate Hret].
  destruct (check_dependencies_run H m1) as (Hfiles & _ & Hout).
  rewrite Hwhich, Hpip in Hout.
  rewrite Hfiles, Hout. by repeat split.
Qed.

Lemma init_fails_after_directories_witness :
  fst (Setup.init
         (Setup.sample_host None None
            (Raises (mk_exn "CalledProcessError" "returned non-zero exit status 1.")))
         Setup.sample_machine)
  = Raises (mk_exn "CalledProcessError" "returned non-zero exit status 1.").
Proof.
  refine (proj1 (init_fails_after_directories
                   (Setup.sample_host None None
                      (Raises (mk_exn "CalledProcessError"
                                 "returned non-zero exit status 1.")))
                   Setup.sample_machine
                   (mk_exn "CalledProcessError" "returned non-zero exit status 1.")
                   eq_refl eq_refl _ _ _ _));
    vm_compute; (reflexivity || discriminate).
Defined.

(** ** The set-up script *)

(** X18. Without the packages there are no directories: when the
    installation run by [main] fails, the tree is left as it is and no
    other command is run; [main] returns normally when the failure is a
    [CalledProcessError] and lets any other exception through. *)
Theorem main_stops_without_packages (H : Setup.host) (m : Setup.machine) (e : exn) :
  Setup.checked H (Setup.pip_install_all H) = Raises e ->
  Setup.files (snd (Setup.main H m)) = Setup.files m
  /\ Setup.commands (snd (Setup.main H m))
     = Setup.commands m ++ [Setup.pip_install_all H]
  /\ fst (Setup.main H m)
     = (if String.eqb (exn_class e) "CalledProcessError"
        then Returns tt else Raises e).
Proof.
  intros Hpip.
  unfold Setup.main, Setup.install_requirements, Setup.io_bind, Setup.print,
    Setup.run_checked, Setup.io_ret.
  fold (Setup.pip_install_all H). cbn. rewrite Hpip.
  destruct (String.eqb (exn_class e) "CalledProcessError"); cbn; done.
Qed.

Lemma main_stops_without_packages_witness :
  Setup.files
    (snd (Setup.main
            (Setup.sample_host None None
               (Raises (mk_exn "CalledProcessError"
                          "returned non-zero exit status 1.")))
            Setup.sample_machine))
  = Setup.files Setup.sample_machine.
Proof.
  exact (proj1 (main_stops_without_packages
                  (Setup.sample_host None None
                     (Raises (mk_exn "CalledProcessError"
                                "returned non-zero exit status 1.")))
                  Setup.sample_machine
                  (mk_exn "CalledProcessError" "returned non-zero exit status 1.")
                  eq_refl)).
Defined.

Lemma io_bind_returns {A B} (c : Setup.IO A) (k : A -> Setup.IO B)
    (m : Setup.machine) (a : A) (m' : Setup.machine) :
  c m = (Returns a, m') -> Setup.io_bind c k m = k a m'.
Proof. intros Hc. unfold Setup.io_bind. by rewrite Hc. Qed.

Lemma install_requirements_ok (H : Setup.host) :
  Setup.checked H (Setup.pip_install_all H) = Returns tt ->
  forall m, exists m',
    Setup.install_requirements H m = (Returns true, m')
    /\ Setup.files m' = Setup.files m.
Proof.
  intros Hpip m. unfold Setup.install_requirements, Setup.io_bind, Setup.print,
    Setup.run_checked.
  fold (Setup.pip_install_all H). cbn. rewrite Hpip. by eexists.
Qed.

Lemma check_ffmpeg_run (H : Setup.host) (m : Setup.machine) :
  exists b m',
    Setup.check_ffmpeg H m = (Returns b, m') /\ Setup.files m' = Setup.files m.
Proof.
  unfold Setup.check_ffmpeg.
  destruct (Setup.which H "ffmpeg") as [[| ch s] |]; by eexists _, _.
Qed.

Lemma create_directories_run (H : Setup.host) (m : Setup.machine) :
  Setup.node_at (Setup.files m) (Setup.cwd H) = Some Setup.Dir ->
  Setup.files m !! Setup.DOWNLOAD_DIR H <> Some Setup.File ->
  Setup.files m !! Setup.AUDIO_DIR H <> Some Setup.File ->
  Setup.files m !! Setup.VIDEO_DIR H <> Some Setup.File ->
  exists m',
    Setup.create_directories H m = (Returns tt, m')
    /\ Setup.files m' !! Setup.DOWNLOAD_DIR H = Some Setup.Dir
    /\ Setup.files m' !! Setup.AUDIO_DIR H = Some Setup.Dir
    /\ Setup.files m' !! Setup.VIDEO_DIR H = Some Setup.Dir.
Proof.
  intros Hcwd HD HA HV.
  unfold Setup.AUDIO_DIR, Setup.VIDEO_DIR, Setup.DOWNLOAD_DIR in *.
  unfold Setup.create_directories. cbv zeta.
  rewrite (make_directories_ok (Setup.cwd H) _ m Hcwd HD HA HV).
  eexists. split; [reflexivity |]. cbn [Setup.files].
  set (D := Setup.cwd H ++ ["youtubestuff"]).
  assert (HAD : D ++ ["audio"] <> D) by apply snoc_neq_self.
  assert (HVD : D ++ ["video"] <> D) by apply snoc_neq_self.
  assert (HVA : D ++ ["video"] <> D ++ ["audio"]).
  { intros E. apply app_inj_tail in E as [_ E]. discriminate E. }
  repeat split.
  - rewrite !lookup_insert_ne by done. apply lookup_insert_eq.
  - rewrite lookup_insert_ne by done. apply lookup_insert_eq.
  - apply lookup_insert_eq.
Qed.

(** X19. When the installation succeeds in an existing directory where
    none of the three paths is a regular file, [main] returns normally
    and leaves the directories the application works in, whether
    [ffmpeg] is found or not. *)
Theorem main_creates_directories (H : Setup.host) (m : Setup.machine) :
  Setup.checked H (Setup.pip_install_all H) = Returns tt ->
  Setup.node_at (Setup.files m) (Setup.cwd H) = Some Setup.Dir ->
  Setup.files m !! Setup.DOWNLOAD_DIR H <> Some Setup.File ->
  Setup.files m !! Setup.AUDIO_DIR H <> Some Setup.File ->
  Setup.files m !! Setup.VIDEO_DIR H <> Some Setup.File ->
  fst (Setup.main H m) = Returns tt
  /\ Setup.files (snd (Setup.main H m)) !! Setup.DOWNLOAD_DIR H = Some Setup.Dir
  /\ Setup.files (snd (Setup.main H m)) !! Setup.AUDIO_DIR H = Some Setup.Dir
  /\ Setup.files (snd (Setup.main H m)) !! Setup.VIDEO_DIR H = Some Setup.Dir.
Proof.
  intros Hpip Hcwd HD HA HV.
  unfold Setup.main.
  erewrite io_bind_returns by reflexivity.
  erewrite io_bind_returns by reflexivity.
  match goal with |- context [Setup.io_bind (Setup.install_requirements H) ?k ?M] =>
    destruct (install_requirements_ok H Hpip M) as (m1 & Hinst & Hf1);
    rewrite (io_bind_returns _ k M _ _ Hinst) end.
  cbn [negb].
  destruct (check_ffmpeg_run H m1) as (b & m2 & Hff & Hf2).
  rewrite (io_bind_returns _ _ m1 _ _ Hff).
  cbn [Setup.files snd Setup.print] in Hf1.
  rewrite <- Hf1, <- Hf2 in Hcwd, HD, HA, HV.
  destruct (create_directories_run H m2 Hcwd HD HA HV)
    as (m3 & Hdirs & HD3 & HA3 & HV3).
  rewrite (io_bind_returns _ _ m2 _ _ Hdirs).
  unfold Setup.io_bind, Setup.print. cbn [fst snd Setup.files].
  by repeat split.
Qed.

Lemma main_creates_directories_witness :
  Setup.files
    (snd (Setup.main (Setup.sample_host None None (Returns tt)) Setup.sample_machine))
    !! ["home"; "youtubestuff"; "video"]
  = Some Setup.Dir.
Proof.
  refine (proj2 (proj2 (proj2
            (main_creates_directories (Setup.sample_host None None (Returns tt))
               Setup.sample_machine eq_refl _ _ _ _))));
    vm_compute; (reflexivity || discriminate).
Defined.
